(** * The structured-query interpreter and the schema inferencer of [app.py]

    A shallow embedding of [generate_schema_definition] and [execute_query]
    (src/app.py) and the properties that the specification states about them.

    Conventions of the model.
    - A cell of the table is a Python scalar: [None], a [bool], an [int], a
      [float] or a [str].  Integers are unbounded ([Z]); a finite float is
      represented by the rational number it denotes ([Q]), which is exact for
      the comparisons and equality tests the interpreter performs.
      [VNone] is Python's [None].  The float NaN, which pandas puts where a
      column of numbers has an empty cell, is not a value of the model: the
      statements about the interpreter speak of tables whose records hold
      no NaN.  The schema inferencer only passes its cells through
      [dropna], which removes [None] and NaN alike; there a missing cell of
      either kind is [VNone].
    - [str.lower()] is a parameter of the interpreter: its case mapping is
      the one of Unicode, a table of the language.
    - A query is the Python object that [json.loads] returns: scalars, lists
      and dictionaries.  Dictionaries are association lists in insertion
      order, looked up by their first matching key.
    - A Python exception is an explicit [Raise]; [st.warning] appends to a
      log of warnings that is returned next to the rows. *)

From Stdlib Require Import ZArith QArith List String Ascii Bool Lia.
From Stdlib Require Import DecimalString.
From Stdlib Require Import Permutation Sorted.
Import ListNotations.

Local Open Scope string_scope.
Local Open Scope list_scope.

(* ------------------------------------------------------------------ *)
(** ** Exceptions *)

Inductive exn : Type :=
| KeyError
| TypeError
| IndexError
| AttributeError.

Inductive result (A : Type) : Type :=
| Ok (a : A)
| Raise (e : exn).

Arguments Ok {A} a.
Arguments Raise {A} e.

Definition bind {A B : Type} (c : result A) (k : A -> result B) : result B :=
  match c with
  | Ok a => k a
  | Raise e => Raise e
  end.

Notation "x <- c ;; k" := (bind c (fun x => k))
  (at level 61, c at next level, right associativity).

(** [for x in xs: ys.append(f(x))] where [f] may raise. *)
Fixpoint for_each {A B : Type} (f : A -> result B) (xs : list A)
  : result (list B) :=
  match xs with
  | [] => Ok []
  | x :: xs' =>
      y <- f x ;;
      ys <- for_each f xs' ;;
      Ok (y :: ys)
  end.

(** [for x in xs: if keep(x): ys.append(x)] where [keep] may raise. *)
Fixpoint select_each {A : Type} (keep : A -> result bool) (xs : list A)
  : result (list A) :=
  match xs with
  | [] => Ok []
  | x :: xs' =>
      b <- keep x ;;
      ys <- select_each keep xs' ;;
      Ok (if b then x :: ys else ys)
  end.

(* ------------------------------------------------------------------ *)
(** ** Values *)

(** A table cell: [None], [True] or [False], an integer, a finite float,
    a string.  There is no NaN. *)
Inductive scalar : Type :=
| VNone
| VBool (b : bool)
| VInt (z : Z)
| VFloat (q : Q)
| VStr (s : string).

(** A value of the parsed query. *)
#[warnings="-register-all"]
Inductive json : Type :=
| JNone
| JBool (b : bool)
| JInt (z : Z)
| JFloat (q : Q)
| JStr (s : string)
| JList (l : list json)
| JDict (d : list (string * json)).

(** A Python [dict] with string keys, in insertion order. *)
Definition dict (A : Type) : Type := list (string * A).

Fixpoint dict_get {A : Type} (k : string) (d : dict A) : option A :=
  match d with
  | [] => None
  | (k', v) :: d' => if String.eqb k k' then Some v else dict_get k d'
  end.

(** [k in d] *)
Definition dict_has {A : Type} (k : string) (d : dict A) : bool :=
  match dict_get k d with
  | Some _ => true
  | None => false
  end.

(** [d[k] = v]: an existing key keeps its position, a new key goes last. *)
Fixpoint dict_set {A : Type} (k : string) (v : A) (d : dict A) : dict A :=
  match d with
  | [] => [(k, v)]
  | (k', v') :: d' =>
      if String.eqb k k' then (k', v) :: d' else (k', v') :: dict_set k v d'
  end.

(** [del d[k]] for a key that may be absent (used to compare queries). *)
Fixpoint dict_remove {A : Type} (k : string) (d : dict A) : dict A :=
  match d with
  | [] => []
  | (k', v') :: d' =>
      if String.eqb k k' then dict_remove k d' else (k', v') :: dict_remove k d'
  end.

Definition dict_keys {A : Type} (d : dict A) : list string := map fst d.

(** One record of [dataframe.to_dict('records')]. *)
Definition row : Type := dict scalar.

(* ------------------------------------------------------------------ *)
(** ** Strings *)

(** [s.endswith(suffix)] *)
Definition endswith (suffix s : string) : bool :=
  (String.length suffix <=? String.length s)%nat &&
  String.eqb
    (substring (String.length s - String.length suffix)
               (String.length suffix) s)
    suffix.

(** [s.replace(old, new)] for a non-empty [old]: every non-overlapping
    occurrence, scanning from the left.  [skip] counts the characters of
    the occurrence just replaced that are still to be passed over. *)
Fixpoint replace_from (old new : string) (skip : nat) (s : string) : string :=
  match s with
  | EmptyString => EmptyString
  | String c s' =>
      match skip with
      | S k => replace_from old new k s'
      | O =>
          if prefix old s
          then new ++ replace_from old new (String.length old - 1) s'
          else String c (replace_from old new 0 s')
      end
  end.

Definition replace (old new s : string) : string := replace_from old new 0 s.

(** What [s.lower()] gives on ASCII text: the letters [A]-[Z] go to
    [a]-[z].  The concrete runs below, whose text is ASCII, use it. *)
Definition lower_ascii (c : ascii) : ascii :=
  let n := nat_of_ascii c in
  if ((65 <=? n) && (n <=? 90))%nat then ascii_of_nat (n + 32) else c.

Fixpoint ascii_lower (s : string) : string :=
  match s with
  | EmptyString => EmptyString
  | String c s' => String (lower_ascii c) (ascii_lower s')
  end.

(** [sub in s] for two strings. *)
Fixpoint str_contains (sub s : string) : bool :=
  prefix sub s ||
  match s with
  | EmptyString => false
  | String _ s' => str_contains sub s'
  end.

(** The characters of a string, as iterating over it gives them. *)
Fixpoint chars (s : string) : list string :=
  match s with
  | EmptyString => []
  | String c s' => String c EmptyString :: chars s'
  end.

(** ["\n".join(parts)] *)
Fixpoint join (sep : string) (parts : list string) : string :=
  match parts with
  | [] => EmptyString
  | [p] => p
  | p :: ps => p ++ sep ++ join sep ps
  end.

Definition newline : string := String (ascii_of_nat 10) EmptyString.

(* ------------------------------------------------------------------ *)
(** ** Python's operators on the values *)

(** [isinstance(x, (int, float))]: [bool] is a subclass of [int]. *)
Definition is_int_or_float (x : scalar) : bool :=
  match x with
  | VBool _ | VInt _ | VFloat _ => true
  | VNone | VStr _ => false
  end.

(** [isinstance(x, bool)] *)
Definition is_bool (x : scalar) : bool :=
  match x with
  | VBool _ => true
  | _ => false
  end.

(** [isinstance(x, str)] *)
Definition is_str (x : scalar) : bool :=
  match x with
  | VStr _ => true
  | _ => false
  end.

Definition Q_of_bool (b : bool) : Q := if b then 1%Q else 0%Q.

(** The number that an [int], [float] or [bool] denotes. *)
Definition number_of (x : scalar) : option Q :=
  match x with
  | VBool b => Some (Q_of_bool b)
  | VInt z => Some (inject_Z z)
  | VFloat q => Some q
  | VNone | VStr _ => None
  end.

Definition json_number_of (v : json) : option Q :=
  match v with
  | JBool b => Some (Q_of_bool b)
  | JInt z => Some (inject_Z z)
  | JFloat q => Some q
  | _ => None
  end.

Definition Qltb (x y : Q) : bool := negb (Qle_bool y x).

(** [x > v] and [x < v] for a cell [x] that passed the [isinstance] test:
    an operand that is not a number raises [TypeError]. *)
Definition py_gt (x : scalar) (v : json) : result bool :=
  match number_of x, json_number_of v with
  | Some a, Some b => Ok (Qltb b a)
  | _, _ => Raise TypeError
  end.

Definition py_lt (x : scalar) (v : json) : result bool :=
  match number_of x, json_number_of v with
  | Some a, Some b => Ok (Qltb a b)
  | _, _ => Raise TypeError
  end.

(** [x == v]: numbers (booleans included) compare by value whatever their
    class, strings with strings, [None] with [None]; anything else differs. *)
Definition py_eq (x : scalar) (v : json) : bool :=
  match x, v with
  | VNone, JNone => true
  | VStr a, JStr b => String.eqb a b
  | _, _ =>
      match number_of x, json_number_of v with
      | Some a, Some b => Qeq_bool a b
      | _, _ => false
      end
  end.

(** [x in v]: membership in a list by [==], substring test in a string
    (a left operand that is not a string raises), key test in a
    dictionary; a number, a boolean or [None] is not iterable. *)
Definition py_in (x : scalar) (v : json) : result bool :=
  match v with
  | JList l => Ok (existsb (py_eq x) l)
  | JStr s =>
      match x with
      | VStr a => Ok (str_contains a s)
      | _ => Raise TypeError
      end
  | JDict d =>
      match x with
      | VStr a => Ok (dict_has a d)
      | _ => Ok false
      end
  | JNone | JBool _ | JInt _ | JFloat _ => Raise TypeError
  end.

(** Truth value of a query field in [if ... and field:]. *)
Definition truthy (v : json) : bool :=
  match v with
  | JNone => false
  | JBool b => b
  | JInt z => negb (z =? 0)%Z
  | JFloat q => negb (Qeq_bool q 0)
  | JStr s => negb (String.eqb s EmptyString)
  | JList l => match l with [] => false | _ => true end
  | JDict d => match d with [] => false | _ => true end
  end.

(** [v[k]] for a string key [k]: only a dictionary can be subscripted by a
    string. *)
Definition subscript (v : json) (k : string) : result json :=
  match v with
  | JDict d =>
      match dict_get k d with
      | Some x => Ok x
      | None => Raise KeyError
      end
  | _ => Raise TypeError
  end.

(** [v.items()] *)
Definition items (v : json) : result (list (string * json)) :=
  match v with
  | JDict d => Ok d
  | _ => Raise AttributeError
  end.

(** [v[0]]: the head of a list, the first character of a string; a
    dictionary of string keys has no key [0]. *)
Definition first_element (v : json) : result json :=
  match v with
  | JList (x :: _) => Ok x
  | JList [] => Raise IndexError
  | JStr (String c _) => Ok (JStr (String c EmptyString))
  | JStr EmptyString => Raise IndexError
  | JDict _ => Raise KeyError
  | JNone | JBool _ | JInt _ | JFloat _ => Raise TypeError
  end.

(** [for col in v] *)
Definition iterate (v : json) : result (list json) :=
  match v with
  | JList l => Ok l
  | JStr s => Ok (map JStr (chars s))
  | JDict d => Ok (map JStr (dict_keys d))
  | JNone | JBool _ | JInt _ | JFloat _ => Raise TypeError
  end.

(** [col in item] for a row [item]: a list or a dictionary is unhashable,
    and no other non-string equals a column name. *)
Definition key_in_row (col : json) (item : row) : result bool :=
  match col with
  | JStr c => Ok (dict_has c item)
  | JList _ | JDict _ => Raise TypeError
  | JNone | JBool _ | JInt _ | JFloat _ => Ok false
  end.

(* ------------------------------------------------------------------ *)
(** ** The table *)

(** A [pandas.DataFrame] as [pd.DataFrame(records)] builds it: the column
    labels, in order, and one list of cells per row.  Column labels are
    distinct (the sheet reader refuses duplicate headers) and every row has
    one cell per column. *)
Record DataFrame : Type := mkDataFrame {
  columns : list string;
  data : list (list scalar)
}.

(** [dataframe.to_dict('records')] *)
Definition to_dict_records (dataframe : DataFrame) : list row :=
  map (fun cells => combine (columns dataframe) cells) (data dataframe).

(** [dataframe.empty]: some axis has length 0. *)
Definition df_empty (dataframe : DataFrame) : bool :=
  match columns dataframe, data dataframe with
  | [], _ => true
  | _, [] => true
  | _, _ => false
  end.

(** [x.get(column)]: [None] for an absent key. *)
Definition row_get (column : string) (item : row) : scalar :=
  match dict_get column item with
  | Some v => v
  | None => VNone
  end.

(** [dataframe[col]] as the list of its cells. *)
Definition series (dataframe : DataFrame) (col : string) : list scalar :=
  map (row_get col) (to_dict_records dataframe).

(** [pd.isna(x)] on the cells of the model. *)
Definition is_missing (x : scalar) : bool :=
  match x with
  | VNone => true
  | _ => false
  end.

(** [s.dropna()] *)
Definition dropna (s : list scalar) : list scalar :=
  filter (fun x => negb (is_missing x)) s.

(** [s.iloc[0]] *)
Definition iloc0 (s : list scalar) : result scalar :=
  match s with
  | x :: _ => Ok x
  | [] => Raise IndexError
  end.

(* ------------------------------------------------------------------ *)
(** ** [generate_schema_definition] *)

Inductive col_type : Type :=
| TString
| TNumber
| TBoolean.

Definition col_type_name (t : col_type) : string :=
  match t with
  | TString => "string"
  | TNumber => "number"
  | TBoolean => "boolean"
  end.

(** *** What a [Series] hands back

    A column all of whose cells are integers that fit 64 bits gets the
    dtype [int64] (or [uint64]), and one all of whose cells are booleans
    the dtype [bool]; every other column keeps its cells as they are (a
    column of floats is [float64], whose [numpy.float64] is a [float]).
    Reading a cell of an integer or boolean column through the [Series]
    gives a numpy scalar, which is neither an [int] nor a [bool]. *)

Definition int64_range (z : Z) : bool :=
  ((- 2 ^ 63 <=? z) && (z <? 2 ^ 63))%Z.

Definition uint64_range (z : Z) : bool :=
  ((0 <=? z) && (z <? 2 ^ 64))%Z.

Definition is_int64 (x : scalar) : bool :=
  match x with
  | VInt z => int64_range z
  | _ => false
  end.

Definition is_uint64 (x : scalar) : bool :=
  match x with
  | VInt z => uint64_range z
  | _ => false
  end.

(** The column has dtype [int64] or [uint64]. *)
Definition integer_dtype (s : list scalar) : bool :=
  forallb is_int64 s || forallb is_uint64 s.

(** The column has dtype [bool]. *)
Definition bool_dtype (s : list scalar) : bool := forallb is_bool s.

(** The column is stored as numpy integers or numpy booleans. *)
Definition numpy_column (s : list scalar) : bool :=
  integer_dtype s || bool_dtype s.

Inductive boxed : Type :=
| NumpyInt (z : Z)
| NumpyBool (b : bool)
| Python (x : scalar).

(** The object that [s.iloc[...]] returns for the cell [x] of column [s]. *)
Definition box (s : list scalar) (x : scalar) : boxed :=
  match x with
  | VInt z => if integer_dtype s then NumpyInt z else Python x
  | VBool b => if bool_dtype s then NumpyBool b else Python x
  | _ => Python x
  end.

(** [isinstance(v, (int, float))] *)
Definition isinstance_int_float (v : boxed) : bool :=
  match v with
  | Python x => is_int_or_float x
  | NumpyInt _ | NumpyBool _ => false
  end.

(** [isinstance(v, bool)] *)
Definition isinstance_bool (v : boxed) : bool :=
  match v with
  | Python x => is_bool x
  | NumpyInt _ | NumpyBool _ => false
  end.

(** The body of the loop over [dataframe.columns], up to the value of
    [col_type]. *)
Definition infer_col_type (dataframe : DataFrame) (col : string)
  : result col_type :=
  match series dataframe col with
  | [] => Ok TString
  | s =>
      x <- iloc0 (dropna s) ;;
      let first_val := box s x in
      if isinstance_int_float first_val then Ok TNumber
      else if isinstance_bool first_val then Ok TBoolean
      else Ok TString
  end.

Definition schema_part (col : string) (t : col_type) : string :=
  "- " ++ col ++ " (" ++ col_type_name t ++ ")".

Definition schema_header : string :=
  "The database has one table called 'products' with the following schema:"
  ++ newline.

Definition generate_schema_definition (dataframe : DataFrame)
  : result string :=
  if df_empty dataframe then Ok "The database table is empty."
  else
    schema_parts <-
      for_each (fun col =>
                  t <- infer_col_type dataframe col ;;
                  Ok (schema_part col t))
               (columns dataframe) ;;
    Ok (schema_header ++ join newline schema_parts)%string.

(** The inferred types alone, column by column. *)
Definition schema_types (dataframe : DataFrame)
  : result (list (string * col_type)) :=
  for_each (fun col =>
              t <- infer_col_type dataframe col ;;
              Ok (col, t))
           (columns dataframe).

(* ------------------------------------------------------------------ *)
(** ** [list.sort(key=..., reverse=...)] *)

(** [a < b] on sort keys: numbers with numbers, strings with strings
    (by code point); any other pair of classes raises [TypeError]. *)
Definition key_lt (a b : scalar) : result bool :=
  match a, b with
  | VStr s, VStr t => Ok (String.ltb s t)
  | _, _ =>
      match number_of a, number_of b with
      | Some x, Some y => Ok (Qltb x y)
      | _, _ => Raise TypeError
      end
  end.

(** [list.sort] is a stable comparison sort that only uses [<] on the keys
    and that a raising comparison aborts: on keys that [<] orders its result
    is the one of the stable insertion sort below, and on a list of two or
    more rows whose keys do not all compare it raises as this one does. *)
Section ListSort.
Variable key : row -> scalar.

Fixpoint insert_row (x : row) (sorted : list row) : result (list row) :=
  match sorted with
  | [] => Ok [x]
  | y :: rest =>
      before <- key_lt (key y) (key x) ;;
      if before
      then (tail <- insert_row x rest ;; Ok (y :: tail))
      else Ok (x :: sorted)
  end.

Fixpoint sort_ascending (l : list row) : result (list row) :=
  match l with
  | [] => Ok []
  | x :: l' =>
      sorted <- sort_ascending l' ;;
      insert_row x sorted
  end.

(** With [reverse=True] the list is reversed, sorted and reversed again,
    so that rows with equal keys keep their original order. *)
Definition list_sort (reverse : bool) (l : list row) : result (list row) :=
  if reverse
  then (sorted <- sort_ascending (rev l) ;; Ok (rev sorted))
  else sort_ascending l.
End ListSort.

(* ------------------------------------------------------------------ *)
(** ** [execute_query] *)

Section Interpreter.

(** [repr] of a query value that is not a string ([str] falls back on it);
    the interpreter only ever renders such a value inside [_contains] and
    inside the text of the warning. *)
Variable repr : json -> string.

(** [str.lower()]: the case mapping of Unicode is a table of the language,
    not of this program, and is taken as given; the interpreter only
    lowers text inside [_contains]. *)
Variable lower : string -> string.

(** [str(value)] *)
Definition py_str (value : json) : string :=
  match value with
  | JStr s => s
  | _ => repr value
  end.

(** The parenthesised condition of one [where] entry; [True] for
    [logical_operator], which the loop passes over. *)
Definition condition (key : string) (value : json) (item : row)
  : result bool :=
  if endswith "_gt" key then
    let col := replace "_gt" EmptyString key in
    match dict_get col item with
    | Some x => if is_int_or_float x then py_gt x value else Ok false
    | None => Ok false
    end
  else if endswith "_lt" key then
    let col := replace "_lt" EmptyString key in
    match dict_get col item with
    | Some x => if is_int_or_float x then py_lt x value else Ok false
    | None => Ok false
    end
  else if endswith "_contains" key then
    let col := replace "_contains" EmptyString key in
    match dict_get col item with
    | Some (VStr s) => Ok (str_contains (lower (py_str value)) (lower s))
    | _ => Ok false
    end
  else if endswith "_in" key then
    let col := replace "_in" EmptyString key in
    match dict_get col item with
    | Some x => py_in x value
    | None => Ok false
    end
  else if String.eqb key "logical_operator" then Ok true
  else
    match dict_get key item with
    | Some x => Ok (py_eq x value)
    | None => Ok false
    end.

(** The inner loop: [match] stays [True] until a condition fails, at
    which point the loop breaks. *)
Fixpoint row_matches (conditions : list (string * json)) (item : row)
  : result bool :=
  match conditions with
  | [] => Ok true
  | (key, value) :: rest =>
      holds <- condition key value item ;;
      if holds then row_matches rest item else Ok false
  end.

(** [# Apply WHERE conditions] *)
Definition apply_where (structured_query : dict json) (results : list row)
  : result (list row) :=
  match dict_get "where" structured_query with
  | Some w =>
      if truthy w
      then select_each
             (fun item =>
                conditions <- items w ;;
                row_matches conditions item)
             results
      else Ok results
  | None => Ok results
  end.

(** [column in dataframe.columns]: an unhashable label raises, a label
    that is not a string is no column. *)
Definition column_exists (column : json) (dataframe : DataFrame)
  : result bool :=
  match column with
  | JStr c => Ok (existsb (String.eqb c) (columns dataframe))
  | JList _ | JDict _ => Raise TypeError
  | JNone | JBool _ | JInt _ | JFloat _ => Ok false
  end.

Definition sort_warning (column : json) : string :=
  "Warning: Cannot sort by non-existent column '" ++ py_str column ++ "'.".

(** [x.get(column)] for the label found among the columns. *)
Definition sort_key (column : json) (x : row) : scalar :=
  match column with
  | JStr c => row_get c x
  | _ => VNone
  end.

(** [direction == 'DESC'] *)
Definition is_desc (direction : json) : bool :=
  match direction with
  | JStr d => String.eqb d "DESC"
  | _ => false
  end.

(** [# Apply ORDER BY]: the rows, or the exception, and the warnings
    shown on the way. *)
Definition apply_order_by (structured_query : dict json)
           (dataframe : DataFrame) (results : list row)
  : result (list row) * list string :=
  match dict_get "orderBy" structured_query with
  | Some o =>
      if truthy o then
        match subscript o "column" with
        | Raise e => (Raise e, [])
        | Ok column =>
            match subscript o "direction" with
            | Raise e => (Raise e, [])
            | Ok direction =>
                match column_exists column dataframe with
                | Raise e => (Raise e, [])
                | Ok true =>
                    (list_sort (sort_key column) (is_desc direction) results,
                     [])
                | Ok false => (Ok results, [sort_warning column])
                end
            end
        end
      else (Ok results, [])
  | None => (Ok results, [])
  end.

(** The loop that fills [new_item]. *)
Fixpoint project_row (cols : list json) (item : row) (new_item : row)
  : result row :=
  match cols with
  | [] => Ok new_item
  | col :: rest =>
      present <- key_in_row col item ;;
      match col, present with
      | JStr c, true => project_row rest item (dict_set c (row_get c item) new_item)
      | _, _ => project_row rest item new_item
      end
  end.

(** [v == '*'] *)
Definition is_star (v : json) : bool :=
  match v with
  | JStr s => String.eqb s "*"
  | _ => false
  end.

(** [# Apply SELECT columns] *)
Definition apply_columns (structured_query : dict json) (results : list row)
  : result (list row) :=
  match dict_get "columns" structured_query with
  | Some cs =>
      if truthy cs then
        first <- first_element cs ;;
        if is_star first then Ok results
        else
          for_each
            (fun item =>
               cols <- iterate cs ;;
               project_row cols item [])
            results
      else Ok results
  | None => Ok results
  end.

(** [results[:n]]: a negative bound counts from the end. *)
Definition slice_to (n : Z) (results : list row) : list row :=
  if (n <? 0)%Z
  then firstn (Z.to_nat (Z.of_nat (List.length results) + n)) results
  else firstn (Z.to_nat n) results.

(** [# Apply LIMIT]: a slice bound is an integer (a [bool] is one). *)
Definition apply_limit (structured_query : dict json) (results : list row)
  : result (list row) :=
  match dict_get "limit" structured_query with
  | Some JNone | None => Ok results
  | Some (JInt n) => Ok (slice_to n results)
  | Some (JBool b) => Ok (slice_to (if b then 1 else 0)%Z results)
  | Some _ => Raise TypeError
  end.

(** The first three stages: filter, order, project. *)
Definition filter_order_project (structured_query : dict json)
           (dataframe : DataFrame) : result (list row) * list string :=
  let results := to_dict_records dataframe in
  match apply_where structured_query results with
  | Raise e => (Raise e, [])
  | Ok results =>
      match apply_order_by structured_query dataframe results with
      | (Raise e, warnings) => (Raise e, warnings)
      | (Ok results, warnings) =>
          (apply_columns structured_query results, warnings)
      end
  end.

(** [execute_query]: what it returns or raises, and the warnings shown. *)
Definition execute_query (structured_query : dict json)
           (dataframe : DataFrame) : result (list row) * list string :=
  match filter_order_project structured_query dataframe with
  | (Raise e, warnings) => (Raise e, warnings)
  | (Ok results, warnings) =>
      (apply_limit structured_query results, warnings)
  end.

End Interpreter.

(* ------------------------------------------------------------------ *)
(** ** Vocabulary of the statements *)

(** A [where] entry holds of a row when its own condition evaluates to
    [True], whatever the other entries do. *)
Definition satisfies (repr : json -> string) (lower : string -> string)
           (item : row)
           (entry : string * json) : bool :=
  match condition repr lower (fst entry) (snd entry) item with
  | Ok b => b
  | Raise _ => false
  end.

Definition satisfies_all (repr : json -> string) (lower : string -> string)
           (conditions : list (string * json)) (item : row) : bool :=
  forallb (satisfies repr lower item) conditions.

Definition is_json_number (v : json) : bool :=
  match json_number_of v with
  | Some _ => true
  | None => false
  end.

Definition is_json_list (v : json) : bool :=
  match v with
  | JList _ => true
  | _ => false
  end.

Definition is_json_str (v : json) : bool :=
  match v with
  | JStr _ => true
  | _ => false
  end.

(** The operand of a [where] entry has the type its suffix asks for: a
    number after [_gt] and [_lt], a list after [_in]. *)
Definition operand_ok (entry : string * json) : bool :=
  let (key, value) := entry in
  if endswith "_gt" key then is_json_number value
  else if endswith "_lt" key then is_json_number value
  else if endswith "_contains" key then true
  else if endswith "_in" key then is_json_list value
  else true.

(** Shape of the query fields, as the translator's schema gives them. *)
Definition where_ok (structured_query : dict json) : bool :=
  match dict_get "where" structured_query with
  | None => true
  | Some (JDict w) => forallb operand_ok w
  | Some _ => false
  end.

Definition columns_ok (structured_query : dict json) : bool :=
  match dict_get "columns" structured_query with
  | None => true
  | Some (JList cs) => forallb is_json_str cs
  | Some _ => false
  end.

Definition limit_ok (structured_query : dict json) : bool :=
  match dict_get "limit" structured_query with
  | None | Some JNone | Some (JInt _) => true
  | Some _ => false
  end.

(** A key with none of the four operator suffixes that is not
    [logical_operator]: the exact-match case. *)
Definition plain_key (key : string) : bool :=
  negb (endswith "_gt" key) && negb (endswith "_lt" key) &&
  negb (endswith "_contains" key) && negb (endswith "_in" key) &&
  negb (String.eqb key "logical_operator").

(** Equality in type and value, as the specification words it: the two
    values are of the same class and equal. *)
Definition strictly_equal (x : scalar) (v : json) : bool :=
  match x, v with
  | VNone, JNone => true
  | VBool a, JBool b => Bool.eqb a b
  | VInt a, JInt b => (a =? b)%Z
  | VFloat a, JFloat b => Qeq_bool a b
  | VStr a, JStr b => String.eqb a b
  | _, _ => false
  end.

(** Python's [==] between a cell and a query value, as a proposition. *)
Definition loosely_equal (x : scalar) (v : json) : Prop :=
  (x = VNone /\ v = JNone) \/
  (exists s, x = VStr s /\ v = JStr s) \/
  (exists a b, number_of x = Some a /\ json_number_of v = Some b /\ (a == b)%Q).

(** The key without its last [String.length suffix] characters, as the
    specification words the column of a suffixed key. *)
Definition strip_suffix (suffix key : string) : string :=
  substring 0 (String.length key - String.length suffix) key.

(** The requested columns that a row has, each once, in the order of
    their first request. *)
Fixpoint dedup (seen cs : list string) : list string :=
  match cs with
  | [] => []
  | c :: rest =>
      if existsb (String.eqb c) seen then dedup seen rest
      else c :: dedup (seen ++ [c]) rest
  end.

Definition selected (cs : list string) (item : row) : list string :=
  dedup [] (filter (fun c => dict_has c item) cs).

Definition projection (cs : list string) (item : row) : row :=
  map (fun c => (c, row_get c item)) (selected cs item).

(** Python's [==] between two cells. *)
Definition scalar_eq (a b : scalar) : bool :=
  match a, b with
  | VNone, VNone => true
  | VStr s, VStr t => String.eqb s t
  | _, _ =>
      match number_of a, number_of b with
      | Some x, Some y => Qeq_bool x y
      | _, _ => false
      end
  end.

(** [key a < key b] where the two keys compare. *)
Definition key_before (key : row -> scalar) (a b : row) : bool :=
  match key_lt (key a) (key b) with
  | Ok r => r
  | Raise _ => false
  end.

(** Ascending: no row is followed by a row of smaller key. *)
Definition ascending (key : row -> scalar) (l : list row) : Prop :=
  StronglySorted (fun a b => key_before key b a = false) l.

(** Descending: no row is followed by a row of larger key. *)
Definition descending (key : row -> scalar) (l : list row) : Prop :=
  StronglySorted (fun a b => key_before key a b = false) l.

(** The sort keys all compare with one another: all numbers or all
    strings. *)
Definition numeric_keys (key : row -> scalar) (l : list row) : Prop :=
  Forall (fun r => is_int_or_float (key r) = true) l.

Definition string_keys (key : row -> scalar) (l : list row) : Prop :=
  Forall (fun r => is_str (key r) = true) l.

Definition comparable_keys (key : row -> scalar) (l : list row) : Prop :=
  numeric_keys key l \/ string_keys key l.

(** [repr] of [None], of a boolean and of an integer, whose text does not
    depend on the float printer.  The concrete runs below use it; none of
    them renders a float, a list or a dictionary. *)
Definition repr_atom (v : json) : string :=
  match v with
  | JNone => "None"
  | JBool true => "True"
  | JBool false => "False"
  | JInt z => NilZero.string_of_int (Z.to_int z)
  | _ => "..."
  end.

(** *** The predicates of the specification

    What the specification asks of one [where] entry, read off its
    words: the column of a suffixed key is the key without that suffix; a
    threshold test needs a numeric cell strictly above (or below) the
    numeric threshold; a containment test needs a string cell in which the
    lower-cased operand occurs; a membership test needs a cell that equals
    some element of the candidate list; [logical_operator] is no
    predicate; any other key asks for a cell equal to the operand (under
    the [==] of the implementation). *)





(** ** Tables and queries of the worked examples *)

Module Scenarios.

Definition products : DataFrame :=
  mkDataFrame ["id"; "name"; "category"; "price"; "stock"]
    [ [VInt 1; VStr "Widget"; VStr "Electronics"; VInt 150; VInt 200];
      [VInt 2; VStr "Gadget"; VStr "Electronics"; VInt 250; VInt 50] ].

Definition widget : row :=
  [("id", VInt 1); ("name", VStr "Widget"); ("category", VStr "Electronics");
   ("price", VInt 150); ("stock", VInt 200)].

Definition gadget : row :=
  [("id", VInt 2); ("name", VStr "Gadget"); ("category", VStr "Electronics");
   ("price", VInt 250); ("stock", VInt 50)].

End Scenarios.

(** The projection stage is passed over: [columns] is absent, empty, or
    its first element is the [*] sentinel. *)
Definition projection_skipped (structured_query : dict json) : bool :=
  match dict_get "columns" structured_query with
  | None => true
  | Some cs =>
      negb (truthy cs) ||
      match first_element cs with
      | Ok first => is_star first
      | Raise _ => false
      end
  end.

(** The insertion sort of [list_sort] on keys that all compare: the
    comparison is [key_before] and nothing is raised. *)
Section PureSort.
Variable key : row -> scalar.

Fixpoint insert_pure (x : row) (sorted : list row) : list row :=
  match sorted with
  | [] => [x]
  | y :: rest =>
      if key_before key y x then y :: insert_pure x rest else x :: sorted
  end.

Fixpoint sort_pure (l : list row) : list row :=
  match l with
  | [] => []
  | x :: l' => insert_pure x (sort_pure l')
  end.
End PureSort.

(** The rows whose sort key equals [v]. *)
Definition with_key (key : row -> scalar) (v : scalar) (l : list row)
  : list row :=
  filter (fun r => scalar_eq (key r) v) l.

Module Ties.

(** Two products at the same price. *)
Definition same_price : DataFrame :=
  mkDataFrame ["name"; "price"]
    [ [VStr "Widget"; VInt 150];
      [VStr "Gadget"; VInt 150] ].

Definition widget : row := [("name", VStr "Widget"); ("price", VInt 150)].
Definition gadget : row := [("name", VStr "Gadget"); ("price", VInt 150)].

(** A price column in which one cell holds text. *)
Definition mixed_price : DataFrame :=
  mkDataFrame ["name"; "price"]
    [ [VStr "Widget"; VInt 150];
      [VStr "Gadget"; VStr "n/a"] ].

(** Three products, two of them at the same price, the dearest in the
    middle. *)
Definition catalogue : DataFrame :=
  mkDataFrame ["name"; "price"]
    [ [VStr "Widget"; VInt 150];
      [VStr "Gadget"; VInt 250];
      [VStr "Gizmo"; VInt 150] ].

Definition dear_gadget : row :=
  [("name", VStr "Gadget"); ("price", VInt 250)].
Definition gizmo : row := [("name", VStr "Gizmo"); ("price", VInt 150)].

Definition by_price (direction : string) : dict json :=
  [("columns", JList [JStr "*"]);
   ("orderBy", JDict [("column", JStr "price");
                      ("direction", JStr direction)])].

End Ties.


(** A value that [results[:v]] accepts as its bound. *)
Definition is_slice_bound (v : json) : bool :=
  match v with
  | JNone | JBool _ | JInt _ => true
  | _ => false
  end.

(* ------------------------------------------------------------------ *)
(** ** [call_gemini_api]: reading the decoded response *)

(** [v.get(k)]: only a dictionary has [get]; an absent key gives [None]. *)
Definition py_get (v : json) (k : string) : result json :=
  match v with
  | JDict d =>
      Ok (match dict_get k d with
          | Some x => x
          | None => JNone
          end)
  | _ => Raise AttributeError
  end.

(** What [call_gemini_api] does with [result = response.json()]: the
    text of the first part of the first candidate, or [None] (after
    [st.error]) when the chain of [get]s meets a falsy value.  None of the
    exceptions raised here is among those the function catches. *)
Definition response_text (decoded : json) : result (option json) :=
  candidates <- py_get decoded "candidates" ;;
  if truthy candidates then
    candidate <- first_element candidates ;;
    content <- py_get candidate "content" ;;
    if truthy content then
      parts <- py_get content "parts" ;;
      if truthy parts then
        part <- first_element parts ;;
        text <- subscript part "text" ;;
        Ok (Some text)
      else Ok None
    else Ok None
  else Ok None.

(* ------------------------------------------------------------------ *)
(** * Properties *)

(** ** Loops and dictionaries *)

Lemma select_each_total {A : Type} (keep : A -> result bool) (f : A -> bool)
      (xs : list A) :
  (forall x, In x xs -> keep x = Ok (f x)) ->
  select_each keep xs = Ok (filter f xs).
Proof.
  induction xs as [|x xs IH]; intros H; simpl; [reflexivity|].
  rewrite (H x (or_introl eq_refl)); simpl.
  rewrite IH by (intros y Hy; apply H; right; exact Hy).
  simpl. destruct (f x); reflexivity.
Qed.

Lemma select_each_result {A : Type} (keep : A -> result bool) (xs ys : list A) :
  select_each keep xs = Ok ys ->
  ys = filter (fun x => match keep x with Ok b => b | Raise _ => false end) xs.
Proof.
  revert ys. induction xs as [|x xs IH]; intros ys H; simpl in *.
  - now inversion H.
  - destruct (keep x) as [b|e]; simpl in H; [|discriminate].
    destruct (select_each keep xs) as [zs|e]; simpl in H; [|discriminate].
    inversion H; subst. rewrite (IH zs eq_refl). destruct b; reflexivity.
Qed.

Lemma for_each_total {A B : Type} (f : A -> result B) (g : A -> B)
      (xs : list A) :
  (forall x, In x xs -> f x = Ok (g x)) ->
  for_each f xs = Ok (map g xs).
Proof.
  induction xs as [|x xs IH]; intros H; simpl; [reflexivity|].
  rewrite (H x (or_introl eq_refl)); simpl.
  rewrite IH by (intros y Hy; apply H; right; exact Hy).
  reflexivity.
Qed.

Lemma dict_get_remove_same {A : Type} (k : string) (d : dict A) :
  dict_get k (dict_remove k d) = None.
Proof.
  induction d as [|[k' v] d IH]; simpl; [reflexivity|].
  destruct (String.eqb k k') eqn:E; [exact IH|].
  simpl. rewrite E. exact IH.
Qed.

Lemma dict_get_remove_other {A : Type} (k k' : string) (d : dict A) :
  String.eqb k k' = false ->
  dict_get k (dict_remove k' d) = dict_get k d.
Proof.
  intros Hk. induction d as [|[k0 v] d IH]; simpl; [reflexivity|].
  destruct (String.eqb k' k0) eqn:E'.
  - apply String.eqb_eq in E'; subst k0. rewrite Hk. exact IH.
  - simpl. destruct (String.eqb k k0); [reflexivity|exact IH].
Qed.

Lemma existsb_eqb_In (c : string) (l : list string) :
  existsb (String.eqb c) l = true <-> In c l.
Proof.
  rewrite existsb_exists. split.
  - intros [x [Hx He]]. apply String.eqb_eq in He. now subst.
  - intros H. exists c. split; [exact H|apply String.eqb_refl].
Qed.

Lemma existsb_eqb_not_In (c : string) (l : list string) :
  ~ In c l -> existsb (String.eqb c) l = false.
Proof.
  intros H. destruct (existsb (String.eqb c) l) eqn:E; [|reflexivity].
  apply existsb_eqb_In in E. contradiction.
Qed.

(** ** The stages only read their own field *)

Section Fields.
Variable repr : json -> string.
Variable lower : string -> string.

Lemma apply_where_field (q q' : dict json) (rows : list row) :
  dict_get "where" q = dict_get "where" q' ->
  apply_where repr lower q rows = apply_where repr lower q' rows.
Proof. unfold apply_where. now intros ->. Qed.

Lemma apply_columns_field (q q' : dict json) (rows : list row) :
  dict_get "columns" q = dict_get "columns" q' ->
  apply_columns q rows = apply_columns q' rows.
Proof. unfold apply_columns. now intros ->. Qed.

Lemma apply_limit_field (q q' : dict json) (rows : list row) :
  dict_get "limit" q = dict_get "limit" q' ->
  apply_limit q rows = apply_limit q' rows.
Proof. unfold apply_limit. now intros ->. Qed.

Lemma apply_order_by_absent (q : dict json) (df : DataFrame)
      (rows : list row) :
  dict_get "orderBy" q = None ->
  apply_order_by repr q df rows = (Ok rows, []).
Proof. unfold apply_order_by. now intros ->. Qed.

(** The value and the warnings of a run, stage by stage. *)
Lemma execute_query_stages (q : dict json) (df : DataFrame) :
  execute_query repr lower q df =
  match apply_where repr lower q (to_dict_records df) with
  | Raise e => (Raise e, [])
  | Ok filtered =>
      match apply_order_by repr q df filtered with
      | (Raise e, ws) => (Raise e, ws)
      | (Ok ordered, ws) =>
          (projected <- apply_columns q ordered ;;
           apply_limit q projected, ws)
      end
  end.
Proof.
  unfold execute_query, filter_order_project.
  destruct (apply_where repr lower q (to_dict_records df)) as [filtered|e];
    [|reflexivity].
  destruct (apply_order_by repr q df filtered) as [[ordered|e] ws];
    [|reflexivity].
  destruct (apply_columns q ordered); reflexivity.
Qed.
End Fields.

(* ------------------------------------------------------------------ *)
(** ** The end-to-end scenarios of the specification *)

Example records_of_products :
  to_dict_records Scenarios.products = [Scenarios.widget; Scenarios.gadget].
Proof. reflexivity. Qed.

Example scenario_filter :
  execute_query repr_atom ascii_lower
    [("columns", JList [JStr "*"]);
     ("where", JDict [("category", JStr "Electronics");
                      ("price_lt", JInt 200)])]
    Scenarios.products
  = (Ok [Scenarios.widget], []).
Proof. reflexivity. Qed.

Example scenario_order_project_limit :
  execute_query repr_atom ascii_lower
    [("columns", JList [JStr "name"; JStr "price"]);
     ("orderBy", JDict [("column", JStr "price");
                        ("direction", JStr "DESC")]);
     ("limit", JInt 1)]
    Scenarios.products
  = (Ok [[("name", VStr "Gadget"); ("price", VInt 250)]], []).
Proof. reflexivity. Qed.

Example scenario_contains :
  execute_query repr_atom ascii_lower
    [("columns", JList [JStr "*"]);
     ("where", JDict [("name_contains", JStr "WID")])]
    Scenarios.products
  = (Ok [Scenarios.widget], []).
Proof. reflexivity. Qed.

Example scenario_in :
  execute_query repr_atom ascii_lower
    [("columns", JList [JStr "*"]);
     ("where", JDict [("stock_in", JList [JInt 50; JInt 75])])]
    Scenarios.products
  = (Ok [Scenarios.gadget], []).
Proof. reflexivity. Qed.

Example scenario_unknown_sort_column :
  execute_query repr_atom ascii_lower
    [("columns", JList [JStr "*"]);
     ("orderBy", JDict [("column", JStr "rating");
                        ("direction", JStr "ASC")])]
    Scenarios.products
  = (Ok [Scenarios.widget; Scenarios.gadget],
     ["Warning: Cannot sort by non-existent column 'rating'."]).
Proof. reflexivity. Qed.

(* ------------------------------------------------------------------ *)
(** ** Limit *)

Lemma slice_to_nonneg (n : Z) (rows : list row) :
  (0 <= n)%Z -> slice_to n rows = firstn (Z.to_nat n) rows.
Proof.
  intros Hn. unfold slice_to.
  destruct (n <? 0)%Z eqn:E; [apply Z.ltb_lt in E; lia|reflexivity].
Qed.

Lemma slice_to_negative (k : Z) (rows : list row) :
  (0 < k)%Z ->
  slice_to (- k) rows = firstn (List.length rows - Z.to_nat k) rows.
Proof.
  intros Hk. unfold slice_to.
  destruct (- k <? 0)%Z eqn:E; [|apply Z.ltb_ge in E; lia].
  f_equal. lia.
Qed.

(** C9.  When [limit] is absent or null the rows that come out of the
    projection are returned as they are; when it is an integer [n >= 0]
    exactly their first [n] are returned: none for [n = 0], all of them
    when [n] is at least their number. *)
Theorem limit_takes_first_rows
        (repr : json -> string) (lower : string -> string)
        (q : dict json) (df : DataFrame)
        (rows : list row) (ws : list string) :
  filter_order_project repr lower q df = (Ok rows, ws) ->
  (dict_get "limit" q = None \/ dict_get "limit" q = Some JNone ->
   execute_query repr lower q df = (Ok rows, ws)) /\
  (forall n : Z,
      (0 <= n)%Z ->
      dict_get "limit" q = Some (JInt n) ->
      execute_query repr lower q df = (Ok (firstn (Z.to_nat n) rows), ws) /\
      (n = 0%Z -> execute_query repr lower q df = (Ok [], ws)) /\
      (Z.of_nat (List.length rows) <= n ->
       execute_query repr lower q df = (Ok rows, ws))%Z).
Proof.
  intros Hstages. unfold execute_query. rewrite Hstages. split.
  - intros [H|H]; unfold apply_limit; rewrite H; reflexivity.
  - intros n Hn Hlimit. unfold apply_limit. rewrite Hlimit.
    rewrite slice_to_nonneg by exact Hn. repeat split.
    + intros ->. reflexivity.
    + intros Hlen. rewrite firstn_all2 by lia. reflexivity.
Qed.

Lemma limit_takes_first_rows_witness :
  execute_query repr_atom ascii_lower
    [("columns", JList [JStr "name"]); ("limit", JInt 1)]
    Scenarios.products
  = (Ok (firstn (Z.to_nat 1) [[("name", VStr "Widget")];
                              [("name", VStr "Gadget")]]), []).
Proof.
  apply (proj2 (limit_takes_first_rows repr_atom ascii_lower
                  [("columns", JList [JStr "name"]); ("limit", JInt 1)]
                  Scenarios.products
                  [[("name", VStr "Widget")]; [("name", VStr "Gadget")]] []
                  eq_refl) 1%Z).
  - lia.
  - reflexivity.
Defined.

(** C10.  A negative integer limit [-k], with [k] at most the number of
    rows that come out of the projection, is taken as a slice bound: the
    last [k] rows are dropped, nothing is raised and no warning is added. *)
Theorem negative_limit_drops_last_rows
        (repr : json -> string) (lower : string -> string)
        (q : dict json) (df : DataFrame)
        (rows : list row) (ws : list string) (k : Z) :
  filter_order_project repr lower q df = (Ok rows, ws) ->
  (0 < k <= Z.of_nat (List.length rows))%Z ->
  dict_get "limit" q = Some (JInt (- k)) ->
  exists kept dropped : list row,
    rows = kept ++ dropped /\
    Z.of_nat (List.length dropped) = k /\
    execute_query repr lower q df = (Ok kept, ws).
Proof.
  intros Hstages Hk Hlimit.
  exists (firstn (List.length rows - Z.to_nat k) rows),
         (skipn (List.length rows - Z.to_nat k) rows).
  split; [symmetry; apply firstn_skipn|]. split.
  - rewrite length_skipn. lia.
  - unfold execute_query. rewrite Hstages. unfold apply_limit.
    rewrite Hlimit, slice_to_negative by lia. reflexivity.
Qed.

Lemma negative_limit_drops_last_rows_witness :
  exists kept dropped : list row,
    [[("name", VStr "Widget")]; [("name", VStr "Gadget")]] = kept ++ dropped /\
    Z.of_nat (List.length dropped) = 1%Z /\
    execute_query repr_atom ascii_lower
      [("columns", JList [JStr "name"]); ("limit", JInt (-1))]
      Scenarios.products
    = (Ok kept, []).
Proof.
  apply (negative_limit_drops_last_rows repr_atom ascii_lower
           [("columns", JList [JStr "name"]); ("limit", JInt (-1))]
           Scenarios.products
           [[("name", VStr "Widget")]; [("name", VStr "Gadget")]] [] 1%Z).
  - reflexivity.
  - simpl. lia.
  - reflexivity.
Defined.

(* ------------------------------------------------------------------ *)
(** ** Ordering by a column that the table does not have *)

(** C7.  When [orderBy] names a column that is not among the table's
    columns, the ordering stage hands its input back unchanged, raises
    nothing and shows one warning; the whole run returns what the same
    query without [orderBy] returns, with that warning. *)
Theorem order_by_unknown_column
        (repr : json -> string) (lower : string -> string)
        (q : dict json) (df : DataFrame)
        (o : dict json) (c : string) (d : json) :
  dict_get "orderBy" q = Some (JDict o) ->
  dict_get "column" o = Some (JStr c) ->
  dict_get "direction" o = Some d ->
  ~ In c (columns df) ->
  (forall rows : list row,
      apply_order_by repr q df rows = (Ok rows, [sort_warning repr (JStr c)])) /\
  fst (execute_query repr lower q df) =
  fst (execute_query repr lower (dict_remove "orderBy" q) df) /\
  (forall filtered : list row,
      apply_where repr lower q (to_dict_records df) = Ok filtered ->
      snd (execute_query repr lower q df) = [sort_warning repr (JStr c)]).
Proof.
  intros Ho Hc Hd Hnot.
  assert (Hstage : forall rows,
             apply_order_by repr q df rows
             = (Ok rows, [sort_warning repr (JStr c)])).
  { intros rows. unfold apply_order_by. rewrite Ho.
    assert (Ht : truthy (JDict o) = true)
      by (destruct o; [discriminate Hc|reflexivity]).
    rewrite Ht. unfold subscript. rewrite Hc, Hd. simpl.
    rewrite existsb_eqb_not_In by exact Hnot. reflexivity. }
  split; [exact Hstage|]. split.
  - rewrite !execute_query_stages.
    rewrite (apply_where_field repr lower (dict_remove "orderBy" q) q)
      by (apply dict_get_remove_other; reflexivity).
    destruct (apply_where repr lower q (to_dict_records df)) as [filtered|e];
      [|reflexivity].
    rewrite Hstage.
    rewrite apply_order_by_absent by apply dict_get_remove_same.
    simpl.
    rewrite (apply_columns_field (dict_remove "orderBy" q) q)
      by (apply dict_get_remove_other; reflexivity).
    destruct (apply_columns q filtered) as [projected|e]; simpl;
      [|reflexivity].
    symmetry. apply apply_limit_field, dict_get_remove_other; reflexivity.
  - intros filtered Hwhere.
    rewrite execute_query_stages, Hwhere, Hstage. reflexivity.
Qed.

Lemma order_by_unknown_column_witness :
  execute_query repr_atom ascii_lower
    [("columns", JList [JStr "*"]);
     ("orderBy", JDict [("column", JStr "rating");
                        ("direction", JStr "ASC")])]
    Scenarios.products
  = (Ok [Scenarios.widget; Scenarios.gadget],
     ["Warning: Cannot sort by non-existent column 'rating'."]).
Proof.
  pose proof
    (order_by_unknown_column repr_atom ascii_lower
       [("columns", JList [JStr "*"]);
        ("orderBy", JDict [("column", JStr "rating");
                           ("direction", JStr "ASC")])]
       Scenarios.products
       [("column", JStr "rating"); ("direction", JStr "ASC")]
       "rating" (JStr "ASC") eq_refl eq_refl eq_refl) as H.
  assert (Hnot : ~ In "rating" (columns Scenarios.products)).
  { simpl. intros [E|[E|[E|[E|[E|[]]]]]]; discriminate E. }
  destruct (H Hnot) as [_ [Hrows Hwarn]].
  rewrite (surjective_pairing (execute_query _ _ _ _)).
  rewrite Hrows, (Hwarn _ eq_refl). reflexivity.
Defined.

(* ------------------------------------------------------------------ *)
(** ** Strings: suffixes, occurrences and [replace] *)

Lemma append_nil_r (s : string) : (s ++ EmptyString)%string = s.
Proof. induction s as [|c s IH]; simpl; [reflexivity|now rewrite IH]. Qed.

Lemma append_assoc (a b c : string) :
  ((a ++ b) ++ c)%string = (a ++ (b ++ c))%string.
Proof. induction a as [|x a IH]; simpl; [reflexivity|now rewrite IH]. Qed.

Lemma length_append (a b : string) :
  String.length (a ++ b) = (String.length a + String.length b)%nat.
Proof. induction a as [|x a IH]; simpl; [reflexivity|now rewrite IH]. Qed.

Lemma substring_all (s : string) : substring 0 (String.length s) s = s.
Proof. induction s as [|c s IH]; simpl; [reflexivity|now rewrite IH]. Qed.

Lemma substring_skip (pre s : string) (m : nat) :
  substring (String.length pre) m (pre ++ s) = substring 0 m s.
Proof. induction pre as [|c pre IH]; simpl; [reflexivity|exact IH]. Qed.

(** A string splits at any position within it. *)
Lemma substring_split (n : nat) (s : string) :
  (n <= String.length s)%nat ->
  s = (substring 0 n s ++ substring n (String.length s - n) s)%string.
Proof.
  revert n. induction s as [|c s IH]; intros [|n] H; simpl in *;
    try reflexivity; try lia.
  - now rewrite substring_all.
  - rewrite <- IH by lia. reflexivity.
Qed.

Lemma endswith_append (pre suffix : string) :
  endswith suffix (pre ++ suffix) = true.
Proof.
  unfold endswith. rewrite length_append.
  replace (String.length pre + String.length suffix - String.length suffix)%nat
    with (String.length pre) by lia.
  rewrite substring_skip, substring_all, String.eqb_refl.
  rewrite andb_true_r. apply Nat.leb_le. lia.
Qed.

Lemma endswith_split (suffix s : string) :
  endswith suffix s = true -> exists pre, s = (pre ++ suffix)%string.
Proof.
  unfold endswith. intros H. apply andb_true_iff in H. destruct H as [Hl He].
  apply Nat.leb_le in Hl. apply String.eqb_eq in He.
  exists (substring 0 (String.length s - String.length suffix) s).
  rewrite (substring_split (String.length s - String.length suffix) s) at 1
    by lia.
  f_equal.
  replace (String.length s - (String.length s - String.length suffix))%nat
    with (String.length suffix) by lia.
  exact He.
Qed.

(** Two strings that end in tails of the same length end in the same
    tail. *)
Lemma append_same_length (s1 s2 a b : string) :
  String.length a = String.length b ->
  (s1 ++ a)%string = (s2 ++ b)%string -> a = b.
Proof.
  revert s2. induction s1 as [|x s1 IH]; intros [|y s2] Hlen H; simpl in H.
  - exact H.
  - apply (f_equal String.length) in H. simpl in H.
    rewrite length_append in H. lia.
  - apply (f_equal String.length) in H. simpl in H.
    rewrite length_append in H. lia.
  - injection H as _ H. now apply IH with s2.
Qed.

Lemma endswith_other (suffix other pre : string) :
  String.length suffix = String.length other ->
  suffix <> other ->
  endswith suffix (pre ++ other) = false.
Proof.
  intros Hlen Hne. destruct (endswith suffix (pre ++ other)) eqn:E;
    [|reflexivity].
  apply endswith_split in E. destruct E as [pre' E].
  apply append_same_length in E; [|now symmetry]. congruence.
Qed.

Lemma prefix_split (p s : string) :
  prefix p s = true <-> exists post, s = (p ++ post)%string.
Proof.
  revert s. induction p as [|a p IH]; intros s; simpl.
  - destruct s; split; intros _; try reflexivity; eexists; reflexivity.
  - destruct s as [|b s]; simpl.
    + split; [discriminate|]. intros [post H]. discriminate H.
    + destruct (ascii_dec a b) as [->|Hne].
      * rewrite IH. split; intros [post H]; exists post.
        -- now rewrite H.
        -- now injection H.
      * split; [discriminate|]. intros [post H]. injection H as H _.
        congruence.
Qed.

(** [sub in s] holds exactly when [sub] occurs somewhere in [s]. *)
Lemma str_contains_occurs (sub s : string) :
  str_contains sub s = true <->
  exists pre post, s = (pre ++ sub ++ post)%string.
Proof.
  induction s as [|c s IH]; cbn [str_contains].
  - rewrite orb_false_r, prefix_split. split.
    + intros [post H]. exists EmptyString, post. exact H.
    + intros [[|x pre] [post H]]; [now exists post|discriminate H].
  - rewrite orb_true_iff, IH, prefix_split. split.
    + intros [[post H]|[pre [post H]]].
      * exists EmptyString, post. exact H.
      * exists (String c pre), post. simpl. now rewrite H.
    + intros [[|x pre] [post H]].
      * left. now exists post.
      * right. simpl in H. injection H as _ H. now exists pre, post.
Qed.

(** The characters of the occurrence just replaced are passed over. *)
Lemma replace_from_skip (old new s rest : string) :
  replace_from old new (String.length s) (s ++ rest)
  = replace_from old new 0 rest.
Proof.
  induction s as [|c s IH]; simpl; [reflexivity|exact IH].
Qed.

Section SuffixOfKey.
(** An operator suffix: an underscore followed by letters. *)
Variable letters : string.
Hypothesis no_underscore : str_contains "_" letters = false.

Let suffix : string := String "_" letters.

(** A tail of the letters cannot run over the underscore of the suffix. *)
Lemma prefix_before_underscore (p s t : string) :
  str_contains "_" p = false ->
  prefix p (s ++ String "_" t) = true -> prefix p s = true.
Proof.
  revert s. induction p as [|a p IH]; intros s Hp H.
  - destruct s; reflexivity.
  - assert (Ha : a <> "_"%char /\ str_contains "_" p = false).
    { cbn [str_contains] in Hp. apply orb_false_iff in Hp.
      destruct Hp as [Hhere Hlater]. split; [|exact Hlater].
      intros ->.
      assert (Ht : prefix "_" (String "_" p) = true)
        by (apply prefix_split; now exists p).
      congruence. }
    destruct Ha as [Ha Hp'].
    destruct s as [|b s]; simpl in *.
    + destruct (ascii_dec a "_"); [contradiction|discriminate].
    + destruct (ascii_dec a b); [now apply IH|discriminate].
Qed.

Lemma replace_suffix (col : string) :
  str_contains suffix col = false ->
  replace suffix EmptyString (col ++ suffix) = col.
Proof.
  unfold replace. induction col as [|c col IH]; intros Hcol.
  - change (EmptyString ++ suffix)%string with (String "_" letters).
    cbn [replace_from].
    assert (Hp : prefix suffix (String "_" letters) = true)
      by (apply prefix_split; exists EmptyString; unfold suffix;
          now rewrite append_nil_r).
    rewrite Hp. cbn [append].
    replace (String.length suffix - 1)%nat with (String.length letters)
      by (unfold suffix; simpl; lia).
    rewrite <- (append_nil_r letters) at 2.
    now rewrite replace_from_skip.
  - cbn [str_contains] in Hcol. apply orb_false_iff in Hcol.
    destruct Hcol as [Hhere Hlater].
    change (String c col ++ suffix)%string with (String c (col ++ suffix)).
    cbn [replace_from].
    assert (Hp : prefix suffix (String c (col ++ suffix)) = false).
    { destruct (prefix suffix (String c (col ++ suffix))) eqn:E;
        [|reflexivity].
      apply prefix_split in E. destruct E as [post E].
      unfold suffix in E. simpl in E. injection E as Ec E.
      assert (Hl : prefix letters (col ++ String "_" letters) = true)
        by (apply prefix_split; now exists post).
      apply prefix_before_underscore in Hl; [|exact no_underscore].
      apply prefix_split in Hl. destruct Hl as [post' Hl].
      assert (Ht : prefix suffix (String c col) = true)
        by (apply prefix_split; exists post'; unfold suffix; simpl;
            now rewrite Ec, Hl).
      congruence. }
    rewrite Hp. f_equal. now apply IH.
Qed.
End SuffixOfKey.

(* ------------------------------------------------------------------ *)
(** ** Suffixed keys on a column whose name is free of the suffix text *)

Lemma endswith_other_tail (head tail other pre : string) :
  String.length tail = String.length other ->
  tail <> other ->
  endswith (head ++ tail) (pre ++ other) = false.
Proof.
  intros Hlen Hne. destruct (endswith (head ++ tail) (pre ++ other)) eqn:E;
    [|reflexivity].
  apply endswith_split in E. destruct E as [pre' E].
  rewrite <- append_assoc in E.
  apply append_same_length in E; [|now symmetry]. congruence.
Qed.

Lemma Qltb_lt (a b : Q) : Qltb a b = true <-> (a < b)%Q.
Proof.
  unfold Qltb. rewrite negb_true_iff. split.
  - intros H. apply Qnot_le_lt. intros Hle.
    apply Qle_bool_iff in Hle. congruence.
  - intros H. destruct (Qle_bool b a) eqn:E; [|reflexivity].
    apply Qle_bool_iff in E. exfalso. exact (Qlt_not_le _ _ H E).
Qed.

Section SuffixedKeys.
Variable repr : json -> string.
Variable lower : string -> string.
Variables (col : string) (value : json) (item : row).

Lemma condition_gt_key :
  str_contains "_gt" col = false ->
  condition repr lower (col ++ "_gt") value item =
  match dict_get col item with
  | Some x => if is_int_or_float x then py_gt x value else Ok false
  | None => Ok false
  end.
Proof.
  intros H. unfold condition.
  rewrite endswith_append, (replace_suffix "gt" eq_refl col H).
  reflexivity.
Qed.

Lemma condition_lt_key :
  str_contains "_lt" col = false ->
  condition repr lower (col ++ "_lt") value item =
  match dict_get col item with
  | Some x => if is_int_or_float x then py_lt x value else Ok false
  | None => Ok false
  end.
Proof.
  intros H. unfold condition.
  rewrite (endswith_other "_gt" "_lt" col eq_refl) by discriminate.
  rewrite endswith_append, (replace_suffix "lt" eq_refl col H).
  reflexivity.
Qed.

Lemma condition_contains_key :
  str_contains "_contains" col = false ->
  condition repr lower (col ++ "_contains") value item =
  match dict_get col item with
  | Some (VStr s) =>
      Ok (str_contains (lower (py_str repr value)) (lower s))
  | _ => Ok false
  end.
Proof.
  intros H. unfold condition.
  assert (Hgt : endswith "_gt" (col ++ "_contains") = false).
  { change (col ++ "_contains")%string with (col ++ ("_conta" ++ "ins"))%string.
    rewrite <- append_assoc. apply endswith_other; [reflexivity|discriminate]. }
  assert (Hlt : endswith "_lt" (col ++ "_contains") = false).
  { change (col ++ "_contains")%string with (col ++ ("_conta" ++ "ins"))%string.
    rewrite <- append_assoc. apply endswith_other; [reflexivity|discriminate]. }
  rewrite Hgt, Hlt, endswith_append, (replace_suffix "contains" eq_refl col H).
  reflexivity.
Qed.

Lemma condition_in_key :
  str_contains "_in" col = false ->
  condition repr lower (col ++ "_in") value item =
  match dict_get col item with
  | Some x => py_in x value
  | None => Ok false
  end.
Proof.
  intros H. unfold condition.
  rewrite (endswith_other "_gt" "_in" col eq_refl) by discriminate.
  rewrite (endswith_other "_lt" "_in" col eq_refl) by discriminate.
  assert (Hc : endswith "_contains" (col ++ "_in") = false)
    by (apply (endswith_other_tail "_conta" "ins" "_in" col);
        [reflexivity|discriminate]).
  rewrite Hc, endswith_append, (replace_suffix "in" eq_refl col H).
  reflexivity.
Qed.
End SuffixedKeys.

(* ------------------------------------------------------------------ *)
(** ** Filtering *)



Section Filtering.
Variable repr : json -> string.
Variable lower : string -> string.



Lemma operand_ok_condition (key : string) (value : json) (item : row) :
  operand_ok (key, value) = true ->
  exists b, condition repr lower key value item = Ok b.
Proof.
  unfold operand_ok, condition, is_json_number, is_json_list.
  destruct (endswith "_gt" key).
  { intros Hv. destruct (dict_get _ item) as [x|]; [|now eexists].
    destruct (is_int_or_float x) eqn:Hx; [|now eexists].
    unfold py_gt. destruct x; try discriminate Hx;
      simpl; destruct (json_number_of value); try discriminate Hv;
      now eexists. }
  destruct (endswith "_lt" key).
  { intros Hv. destruct (dict_get _ item) as [x|]; [|now eexists].
    destruct (is_int_or_float x) eqn:Hx; [|now eexists].
    unfold py_lt. destruct x; try discriminate Hx;
      simpl; destruct (json_number_of value); try discriminate Hv;
      now eexists. }
  destruct (endswith "_contains" key).
  { intros _. destruct (dict_get _ item) as [[| | | |s]|]; now eexists. }
  destruct (endswith "_in" key).
  { intros Hv. destruct (dict_get _ item) as [x|]; [|now eexists].
    destruct value; try discriminate Hv. simpl. now eexists. }
  intros _. destruct (String.eqb key "logical_operator"); [now eexists|].
  destruct (dict_get key item); now eexists.
Qed.

Lemma row_matches_total (w : list (string * json)) (item : row) :
  forallb operand_ok w = true ->
  row_matches repr lower w item = Ok (satisfies_all repr lower w item).
Proof.
  induction w as [|[key value] w IH]; simpl; [reflexivity|].
  intros H. apply andb_true_iff in H. destruct H as [Hk Hw].
  destruct (operand_ok_condition key value item Hk) as [b Hb].
  unfold satisfies at 1; simpl. rewrite Hb. simpl.
  destruct b; [now apply IH|reflexivity].
Qed.



Lemma apply_where_nonempty (q : dict json) (w : list (string * json))
      (rows : list row) :
  dict_get "where" q = Some (JDict w) ->
  w <> [] ->
  apply_where repr lower q rows = select_each (row_matches repr lower w) rows.
Proof.
  intros Hw Hne. unfold apply_where. rewrite Hw.
  destruct w as [|entry w]; [contradiction|reflexivity].
Qed.
End Filtering.

(* ------------------------------------------------------------------ *)
(** ** Exact match *)

Lemma py_eq_loosely_equal (x : scalar) (v : json) :
  py_eq x v = true <-> loosely_equal x v.
Proof.
  unfold loosely_equal. split.
  - intros H.
    destruct x, v; simpl in H; try discriminate H;
      try (left; split; reflexivity);
      try (right; left; apply String.eqb_eq in H; subst; eexists;
           split; reflexivity);
      right; right; do 2 eexists; simpl;
      (split; [reflexivity|split; [reflexivity|]]);
      apply Qeq_bool_iff; exact H.
  - intros [[-> ->]|[[s [-> ->]]|[a [b [Ha [Hb Hab]]]]]].
    + reflexivity.
    + simpl. apply String.eqb_refl.
    + destruct x; simpl in Ha; try discriminate Ha;
        destruct v; simpl in Hb; try discriminate Hb;
        inversion Ha; inversion Hb; subst; simpl;
        apply Qeq_bool_iff; exact Hab.
Qed.

Lemma condition_plain_key (repr : json -> string) (lower : string -> string)
      (key : string)
      (value : json) (item : row) :
  plain_key key = true ->
  condition repr lower key value item =
  match dict_get key item with
  | Some x => Ok (py_eq x value)
  | None => Ok false
  end.
Proof.
  unfold plain_key, condition. intros H.
  repeat (apply andb_true_iff in H; destruct H as [H ?]).
  repeat match goal with
         | E : negb ?b = true |- _ =>
             apply negb_true_iff in E; rewrite E; clear E
         end.
  reflexivity.
Qed.

(** C8 (as amended).  For a key with no operator suffix a row passes iff
    it has the column and the cell equals the given value under Python's
    [==]: [None] with [None], a string with the same string, and numbers
    (booleans among them) by numeric value whatever their class.  A row
    without the column fails the predicate; nothing is raised. *)
Theorem exact_match_by_value
        (repr : json -> string) (lower : string -> string)
        (key : string) (value : json) (item : row) :
  plain_key key = true ->
  (condition repr lower key value item = Ok true <->
   exists x, dict_get key item = Some x /\ loosely_equal x value) /\
  (dict_get key item = None -> condition repr lower key value item = Ok false) /\
  (exists b : bool, condition repr lower key value item = Ok b).
Proof.
  intros Hkey. rewrite (condition_plain_key repr lower key value item Hkey).
  destruct (dict_get key item) as [x|].
  - split; [|split].
    + split.
      * intros H. exists x. split; [reflexivity|].
        apply py_eq_loosely_equal. now inversion H.
      * intros [y [Hy Heq]]. inversion Hy; subst y.
        apply py_eq_loosely_equal in Heq. now rewrite Heq.
    + discriminate.
    + now eexists.
  - split; [|split].
    + split; [discriminate|]. intros [y [Hy _]]. discriminate Hy.
    + reflexivity.
    + now eexists.
Qed.

Lemma exact_match_by_value_witness :
  exists b : bool,
    condition repr_atom ascii_lower "category" (JStr "Electronics") Scenarios.widget = Ok b.
Proof.
  apply (proj2 (proj2 (exact_match_by_value repr_atom ascii_lower "category"
                         (JStr "Electronics") Scenarios.widget eq_refl))).
Defined.

(** An integer cell passes the exact match against a float of the same
    value, although the two differ in type. *)
Lemma exact_match_ignores_type :
  execute_query repr_atom ascii_lower
    [("columns", JList [JStr "*"]);
     ("where", JDict [("price", JFloat (150 # 1))])]
    Scenarios.products
  = (Ok [Scenarios.widget], []) /\
  dict_get "price" Scenarios.widget = Some (VInt 150) /\
  strictly_equal (VInt 150) (JFloat (150 # 1)) = false.
Proof. repeat split. Qed.

(* ------------------------------------------------------------------ *)
(** ** Suffixed keys *)

(** C4.  On a key in which the suffix text also occurs before the end,
    [replace] removes every occurrence: for the column [pct_gt_50] and the
    key [pct_gt_50_gt] the interpreter looks up [pct_50], finds no such
    column and rejects a row whose [pct_gt_50] is a number above the
    threshold. *)
Theorem suffix_removed_everywhere :
  replace "_gt" EmptyString "pct_gt_50_gt" = "pct_50" /\
  strip_suffix "_gt" "pct_gt_50_gt" = "pct_gt_50" /\
  execute_query repr_atom ascii_lower
    [("columns", JList [JStr "*"]);
     ("where", JDict [("pct_gt_50_gt", JInt 10)])]
    (mkDataFrame ["id"; "pct_gt_50"] [[VInt 1; VInt 30]])
  = (Ok [], []) /\
  py_gt (VInt 30) (JInt 10) = Ok true.
Proof. repeat split. Qed.

(* ------------------------------------------------------------------ *)
(** ** Schema inference *)

Lemma infer_col_type_never_boolean (df : DataFrame) (col : string) :
  infer_col_type df col <> Ok TBoolean.
Proof.
  unfold infer_col_type.
  destruct (series df col) as [|x s]; [discriminate|].
  destruct (iloc0 (dropna (x :: s))) as [y|e]; [|discriminate].
  cbn [bind]. unfold box.
  destruct y as [|b|z|q|t];
    try (destruct (integer_dtype (x :: s)));
    try (destruct (bool_dtype (x :: s)));
    simpl; discriminate.
Qed.

(** C2.  No column of any table is ever reported as [boolean].  A column
    whose first non-missing value is a boolean is a [number] when the
    column also holds other values and a [string] when all its cells are
    booleans; a column of integers, whose first value is a numeric
    literal, is a [string] too; and a column in which every value is
    missing makes the inferencer raise [IndexError] instead of reporting
    [string]. *)
Theorem schema_of_boolean_and_missing_columns :
  (forall (df : DataFrame) (col : string),
      infer_col_type df col <> Ok TBoolean) /\
  schema_types
    (mkDataFrame ["id"; "active"]
       [[VInt 1; VBool true]; [VInt 2; VStr "n/a"]])
  = Ok [("id", TString); ("active", TNumber)] /\
  generate_schema_definition
    (mkDataFrame ["id"; "active"]
       [[VInt 1; VBool true]; [VInt 2; VStr "n/a"]])
  = Ok (schema_header ++ "- id (string)" ++ newline ++ "- active (number)")%string /\
  schema_types
    (mkDataFrame ["name"; "active"]
       [[VStr "Widget"; VBool true]; [VStr "Gadget"; VBool false]])
  = Ok [("name", TString); ("active", TString)] /\
  generate_schema_definition
    (mkDataFrame ["id"; "note"] [[VInt 1; VNone]; [VInt 2; VNone]])
  = Raise IndexError.
Proof.
  split; [exact infer_col_type_never_boolean|]. repeat split.
Qed.

(* ------------------------------------------------------------------ *)
(** ** Projection *)

Section Projection.
Variable item : row.

Let cell (c : string) : string * scalar := (c, row_get c item).

Lemma dict_set_known (c : string) (ks : list string) :
  existsb (String.eqb c) ks = true ->
  dict_set c (row_get c item) (map cell ks) = map cell ks.
Proof.
  induction ks as [|k ks IH]; simpl; [discriminate|].
  destruct (String.eqb c k) eqn:E.
  - intros _. apply String.eqb_eq in E. now subst.
  - simpl. intros H. now rewrite IH.
Qed.

Lemma dict_set_new (c : string) (ks : list string) :
  existsb (String.eqb c) ks = false ->
  dict_set c (row_get c item) (map cell ks) = map cell (ks ++ [c]).
Proof.
  induction ks as [|k ks IH]; simpl; [reflexivity|].
  destruct (String.eqb c k) eqn:E; simpl; [discriminate|].
  intros H. now rewrite IH.
Qed.

Lemma project_row_from (cs ks : list string) :
  project_row (map JStr cs) item (map cell ks)
  = Ok (map cell
            (ks ++ dedup ks (filter (fun c => dict_has c item) cs))).
Proof.
  revert ks. induction cs as [|c cs IH]; intros ks; simpl.
  - now rewrite app_nil_r.
  - destruct (dict_has c item) eqn:Hhas; simpl; [|apply IH].
    destruct (existsb (String.eqb c) ks) eqn:Hseen.
    + rewrite dict_set_known by exact Hseen. apply IH.
    + rewrite dict_set_new by exact Hseen. rewrite IH.
      now rewrite <- app_assoc.
Qed.

Lemma project_row_projection (cs : list string) :
  project_row (map JStr cs) item [] = Ok (projection cs item).
Proof. exact (project_row_from cs []). Qed.

Lemma dedup_In (c : string) (l seen : list string) :
  In c (dedup seen l) <-> In c l /\ ~ In c seen.
Proof.
  revert seen. induction l as [|x l IH]; intros seen; simpl.
  - tauto.
  - destruct (existsb (String.eqb x) seen) eqn:E.
    + apply existsb_eqb_In in E. rewrite IH. split.
      * tauto.
      * intros [[->|H] Hn]; [contradiction|tauto].
    + assert (Hx : ~ In x seen).
      { intros H. apply existsb_eqb_In in H. congruence. }
      simpl. rewrite IH, in_app_iff. simpl. split.
      * intros [->|[H Hn]]; [tauto|tauto].
      * intros [[->|H] Hn]; [tauto|].
        destruct (string_dec x c) as [->|Hne]; [tauto|].
        right. split; [exact H|]. intros [H'|[H'|[]]]; tauto.
Qed.

Lemma dedup_NoDup (l seen : list string) :
  NoDup l -> (forall c, In c l -> ~ In c seen) -> dedup seen l = l.
Proof.
  revert seen. induction l as [|x l IH]; intros seen Hnd Hdis; simpl;
    [reflexivity|].
  rewrite existsb_eqb_not_In by (apply Hdis; now left).
  f_equal. inversion Hnd; subst. apply IH; [assumption|].
  intros c Hc. rewrite in_app_iff. simpl.
  intros [H|[->|[]]]; [|contradiction].
  exact (Hdis c (or_intror Hc) H).
Qed.

Lemma dict_get_cells (col : string) (ks : list string) :
  dict_get col (map cell ks)
  = if existsb (String.eqb col) ks then Some (row_get col item) else None.
Proof.
  induction ks as [|k ks IH]; simpl; [reflexivity|].
  destruct (String.eqb col k) eqn:E; simpl; [|exact IH].
  apply String.eqb_eq in E. now subst.
Qed.

Lemma selected_In (cs : list string) (c : string) :
  In c (selected cs item) <-> In c cs /\ dict_has c item = true.
Proof.
  unfold selected. rewrite dedup_In, filter_In. simpl. tauto.
Qed.

(** A projected row has a requested column exactly when the row has it,
    with the row's value. *)
Lemma projection_lookup (cs : list string) (col : string) :
  dict_get col (projection cs item)
  = if existsb (String.eqb col) cs then dict_get col item else None.
Proof.
  unfold projection. fold cell. rewrite dict_get_cells.
  destruct (existsb (String.eqb col) (selected cs item)) eqn:Esel.
  - apply existsb_eqb_In, selected_In in Esel. destruct Esel as [Hin Hhas].
    apply existsb_eqb_In in Hin. rewrite Hin.
    unfold row_get. unfold dict_has in Hhas.
    destruct (dict_get col item); [reflexivity|discriminate].
  - destruct (existsb (String.eqb col) cs) eqn:Ecs; [|reflexivity].
    apply existsb_eqb_In in Ecs.
    destruct (dict_has col item) eqn:Hhas.
    + assert (H : In col (selected cs item)) by (apply selected_In; tauto).
      apply existsb_eqb_In in H. congruence.
    + unfold dict_has in Hhas.
      destruct (dict_get col item); [discriminate|reflexivity].
Qed.

(** Its keys are the requested columns that the row has, in the order
    of the request. *)
Lemma projection_keys (cs : list string) :
  NoDup cs ->
  dict_keys (projection cs item) = filter (fun c => dict_has c item) cs.
Proof.
  intros Hnd. unfold dict_keys, projection. rewrite map_map. simpl.
  rewrite map_id. unfold selected. apply dedup_NoDup.
  - now apply NoDup_filter.
  - intros c _ [].
Qed.
End Projection.

Lemma json_strings (l : list json) :
  forallb is_json_str l = true -> exists cs, l = map JStr cs.
Proof.
  induction l as [|v l IH]; simpl; intros H.
  - now exists [].
  - apply andb_true_iff in H. destruct H as [Hv Hl].
    destruct (IH Hl) as [cs ->].
    destruct v; try discriminate Hv. now exists (s :: cs).
Qed.

(** The projection stage on a [columns] list of strings. *)
Lemma apply_columns_list (q : dict json) (cs : list string)
      (rows : list row) :
  dict_get "columns" q = Some (JList (map JStr cs)) ->
  apply_columns q rows
  = if projection_skipped q then Ok rows
    else Ok (map (projection cs) rows).
Proof.
  intros Hq. unfold projection_skipped, apply_columns. rewrite Hq.
  destruct cs as [|c cs]; [reflexivity|].
  simpl. destruct (String.eqb c "*"); [reflexivity|].
  apply for_each_total. intros item _.
  exact (project_row_projection item (c :: cs)).
Qed.

Lemma apply_columns_returns (q : dict json) (rows : list row) :
  columns_ok q = true ->
  exists projected, apply_columns q rows = Ok projected.
Proof.
  intros Hok. unfold columns_ok in Hok.
  destruct (dict_get "columns" q) as [v|] eqn:Ev.
  - destruct v as [| | | | |l|]; try discriminate Hok.
    destruct (json_strings l Hok) as [cs ->].
    rewrite (apply_columns_list q cs rows Ev).
    destruct (projection_skipped q); now eexists.
  - unfold apply_columns. rewrite Ev. now eexists.
Qed.

(** C3 (as amended).  The projection is passed over iff [columns] is
    absent, is empty, or starts with the [*] sentinel, and then the rows
    keep all their columns.  Otherwise every output row is a new mapping
    that holds, of the requested columns, exactly those that the row has,
    with the row's values and in the order of the request; a requested
    column that a row lacks is left out of that row. *)
Theorem projection_of_columns (q : dict json) (rows : list row) :
  columns_ok q = true ->
  (projection_skipped q = true -> apply_columns q rows = Ok rows) /\
  (projection_skipped q = false ->
   exists cs : list string,
     dict_get "columns" q = Some (JList (map JStr cs)) /\
     apply_columns q rows = Ok (map (projection cs) rows) /\
     (forall (item : row) (col : string),
         dict_get col (projection cs item)
         = if existsb (String.eqb col) cs then dict_get col item else None) /\
     (NoDup cs ->
      forall item : row,
        dict_keys (projection cs item)
        = filter (fun c => dict_has c item) cs)).
Proof.
  unfold columns_ok, projection_skipped, apply_columns.
  destruct (dict_get "columns" q) as [v|]; [|intros _; split;
                                              [reflexivity|discriminate]].
  destruct v as [| | | | |l|]; try discriminate.
  intros Hok. destruct (json_strings l Hok) as [cs ->].
  destruct cs as [|c cs]; [split; [reflexivity|discriminate]|].
  simpl. destruct (String.eqb c "*") eqn:Estar.
  - split; [reflexivity|discriminate].
  - split; [discriminate|]. intros _. exists (c :: cs).
    split; [reflexivity|]. split; [|split].
    + apply for_each_total. intros item _.
      exact (project_row_projection item (c :: cs)).
    + intros item col. apply projection_lookup.
    + intros Hnd item. now apply projection_keys.
Qed.

Lemma projection_of_columns_witness :
  apply_columns
    [("columns", JList [JStr "name"; JStr "rating"; JStr "price"])]
    [Scenarios.widget]
  = Ok [[("name", VStr "Widget"); ("price", VInt 150)]].
Proof.
  destruct (proj2 (projection_of_columns
                     [("columns",
                       JList [JStr "name"; JStr "rating"; JStr "price"])]
                     [Scenarios.widget] eq_refl) eq_refl)
    as [cs [Hcs [Hrows _]]].
  injection Hcs as Hcs.
  rewrite Hrows.
  assert (E : cs = ["name"; "rating"; "price"]).
  { destruct cs as [|a [|b [|c [|d cs]]]]; try discriminate Hcs.
    now injection Hcs as <- <- <-. }
  rewrite E. reflexivity.
Defined.

(** With an empty [columns] list, or a list that starts with [*] and
    goes on, the rows come out with all their columns. *)
Lemma projection_skipped_beyond_star :
  execute_query repr_atom ascii_lower [("columns", JList [])] Scenarios.products
  = (Ok [Scenarios.widget; Scenarios.gadget], []) /\
  execute_query repr_atom ascii_lower [("columns", JList [JStr "*"; JStr "name"])]
    Scenarios.products
  = (Ok [Scenarios.widget; Scenarios.gadget], []).
Proof. split; reflexivity. Qed.

(* ------------------------------------------------------------------ *)
(** ** Sorting *)

Lemma StronglySorted_app {A : Type} (R : A -> A -> Prop) (l1 l2 : list A) :
  StronglySorted R l1 ->
  StronglySorted R l2 ->
  (forall a b, In a l1 -> In b l2 -> R a b) ->
  StronglySorted R (l1 ++ l2).
Proof.
  induction l1 as [|x l1 IH]; intros H1 H2 H; simpl; [exact H2|].
  inversion H1; subst. constructor.
  - apply IH; [assumption|assumption|].
    intros a b Ha Hb. apply H; [now right|exact Hb].
  - apply Forall_app. split; [assumption|].
    apply Forall_forall. intros b Hb. apply H; [now left|exact Hb].
Qed.

Lemma StronglySorted_rev {A : Type} (R : A -> A -> Prop) (l : list A) :
  StronglySorted R l -> StronglySorted (fun a b => R b a) (rev l).
Proof.
  induction 1 as [|x l Hl IH Hx]; simpl; [constructor|].
  apply StronglySorted_app.
  - exact IH.
  - repeat constructor.
  - intros a b Ha [<-|[]]. apply in_rev in Ha.
    rewrite Forall_forall in Hx. now apply Hx.
Qed.

(** Two orderings of the same rows by a relation that is antisymmetric
    on them are the same list. *)
Lemma sorted_unique {A : Type} (R : A -> A -> Prop) (l1 l2 : list A) :
  Permutation l1 l2 ->
  StronglySorted R l1 ->
  StronglySorted R l2 ->
  (forall a b, In a l1 -> In b l1 -> R a b -> R b a -> a = b) ->
  l1 = l2.
Proof.
  revert l2. induction l1 as [|a l1 IH]; intros l2 Hp H1 H2 Hanti.
  - apply Permutation_nil in Hp. now subst.
  - destruct l2 as [|b l2];
      [apply Permutation_sym, Permutation_nil in Hp; discriminate|].
    inversion H1 as [|? ? Hs1 Ha]; subst.
    inversion H2 as [|? ? Hs2 Hb]; subst.
    assert (Hab : a = b).
    { assert (Hina : In a (b :: l2))
        by (apply (Permutation_in a Hp); now left).
      assert (Hinb : In b (a :: l1))
        by (apply (Permutation_in b (Permutation_sym Hp)); now left).
      destruct Hina as [E|Hina]; [now subst|].
      destruct Hinb as [E|Hinb]; [now subst|].
      rewrite Forall_forall in Ha, Hb.
      apply Hanti; [now left|now right|now apply Ha|now apply Hb]. }
    subst b. f_equal. apply IH.
    + now apply Permutation_cons_inv with a.
    + assumption.
    + assumption.
    + intros x y Hx Hy. apply Hanti; now right.
Qed.

Section StableSort.
Variable key : row -> scalar.

(** The class of keys at hand (numbers, or strings) and what [<] and
    [==] do on it. *)
Variable P : row -> Prop.
Hypothesis compares :
  forall a b, P a -> P b -> key_lt (key a) (key b) = Ok (key_before key a b).
Hypothesis asymmetric :
  forall a b, P a -> P b -> key_before key a b = true ->
              key_before key b a = false.
Hypothesis transitive :
  forall a b c, P a -> P b -> P c ->
                key_before key b a = false -> key_before key c b = false ->
                key_before key c a = false.
Hypothesis equal_keys :
  forall a b v, P a -> P b -> key_before key a b = true ->
                scalar_eq (key a) v = true -> scalar_eq (key b) v = false.
Hypothesis total :
  forall a b, P a -> P b ->
              key_before key a b = false -> key_before key b a = false ->
              scalar_eq (key a) (key b) = true.

Lemma insert_pure_perm (x : row) (l : list row) :
  Permutation (x :: l) (insert_pure key x l).
Proof.
  induction l as [|y l IH]; simpl; [reflexivity|].
  destruct (key_before key y x); [|reflexivity].
  rewrite perm_swap. now apply perm_skip.
Qed.

Lemma sort_pure_perm (l : list row) : Permutation l (sort_pure key l).
Proof.
  induction l as [|x l IH]; simpl; [reflexivity|].
  rewrite <- insert_pure_perm. now apply perm_skip.
Qed.

Lemma sort_pure_class (l : list row) : Forall P l -> Forall P (sort_pure key l).
Proof.
  intros H. apply Forall_forall. intros r Hr.
  rewrite Forall_forall in H. apply H.
  exact (Permutation_in r (Permutation_sym (sort_pure_perm l)) Hr).
Qed.

Lemma insert_row_pure (x : row) (l : list row) :
  P x -> Forall P l -> insert_row key x l = Ok (insert_pure key x l).
Proof.
  intros Hx. induction l as [|y l IH]; intros Hl; simpl; [reflexivity|].
  inversion Hl; subst. rewrite compares by assumption. simpl.
  destruct (key_before key y x); [|reflexivity].
  now rewrite IH.
Qed.

Lemma sort_ascending_pure (l : list row) :
  Forall P l -> sort_ascending key l = Ok (sort_pure key l).
Proof.
  induction l as [|x l IH]; intros Hl; simpl; [reflexivity|].
  inversion Hl; subst. rewrite IH by assumption. simpl.
  apply insert_row_pure; [assumption|now apply sort_pure_class].
Qed.

Lemma insert_pure_ascending (x : row) (l : list row) :
  P x -> Forall P l -> ascending key l -> ascending key (insert_pure key x l).
Proof.
  unfold ascending. intros Hx.
  induction l as [|y l IH]; intros Hl Hs; simpl.
  - repeat constructor.
  - inversion Hl as [|? ? Hy Hl']; subst.
    inversion Hs as [|? ? Hs' Hall]; subst.
    destruct (key_before key y x) eqn:E.
    + constructor; [now apply IH|].
      apply Forall_forall. intros r Hr.
      apply (Permutation_in r (Permutation_sym (insert_pure_perm x l))) in Hr.
      destruct Hr as [<-|Hr].
      * now apply asymmetric.
      * rewrite Forall_forall in Hall. now apply Hall.
    + constructor; [exact Hs|].
      constructor; [exact E|].
      rewrite Forall_forall in Hall, Hl'. apply Forall_forall.
      intros r Hr. apply transitive with y; auto.
Qed.

Lemma sort_pure_ascending (l : list row) :
  Forall P l -> ascending key (sort_pure key l).
Proof.
  induction l as [|x l IH]; intros Hl; simpl; [constructor|].
  inversion Hl; subst.
  apply insert_pure_ascending;
    [assumption|now apply sort_pure_class|now apply IH].
Qed.

Lemma insert_pure_stable (v : scalar) (x : row) (l : list row) :
  P x -> Forall P l ->
  with_key key v (insert_pure key x l) = with_key key v (x :: l).
Proof.
  unfold with_key. intros Hx.
  induction l as [|y l IH]; intros Hl; [reflexivity|].
  inversion Hl; subst. cbn [insert_pure].
  destruct (key_before key y x) eqn:E; [|reflexivity].
  cbn [filter]. rewrite IH by assumption. cbn [filter].
  destruct (scalar_eq (key y) v) eqn:Ey; [|reflexivity].
  rewrite (equal_keys y x v) by assumption. reflexivity.
Qed.

Lemma sort_pure_stable (v : scalar) (l : list row) :
  Forall P l -> with_key key v (sort_pure key l) = with_key key v l.
Proof.
  induction l as [|x l IH]; intros Hl; [reflexivity|].
  inversion Hl; subst. cbn [sort_pure].
  rewrite insert_pure_stable by (auto using sort_pure_class).
  unfold with_key in *. cbn [filter]. now rewrite IH.
Qed.

(** Without equal keys among different rows, sorting the reversed list
    gives the same list. *)
Lemma sort_pure_rev (l : list row) :
  Forall P l ->
  (forall a b, In a l -> In b l ->
               scalar_eq (key a) (key b) = true -> a = b) ->
  sort_pure key (rev l) = sort_pure key l.
Proof.
  intros Hl Hdistinct.
  assert (Hrev : Forall P (rev l)) by now apply Forall_rev.
  apply sorted_unique with (R := fun a b => key_before key b a = false).
  - rewrite <- (sort_pure_perm (rev l)), <- (sort_pure_perm l).
    apply Permutation_sym, Permutation_rev.
  - now apply sort_pure_ascending.
  - now apply sort_pure_ascending.
  - intros a b Ha Hb Hab Hba.
    apply (Permutation_in a (Permutation_sym (sort_pure_perm (rev l)))) in Ha.
    apply (Permutation_in b (Permutation_sym (sort_pure_perm (rev l)))) in Hb.
    apply in_rev in Ha. apply in_rev in Hb.
    rewrite Forall_forall in Hl.
    apply Hdistinct; [assumption|assumption|].
    apply total; auto.
Qed.

(** What [list.sort] returns on rows of the class. *)
Lemma list_sort_class (reverse : bool) (l : list row) :
  Forall P l ->
  exists sorted : list row,
    list_sort key reverse l = Ok sorted /\
    Permutation l sorted /\
    (forall v, with_key key v sorted = with_key key v l) /\
    (if reverse then descending key sorted else ascending key sorted) /\
    ((forall a b, In a l -> In b l ->
                  scalar_eq (key a) (key b) = true -> a = b) ->
     list_sort key true l = Ok (rev (sort_pure key l)) /\
     list_sort key false l = Ok (sort_pure key l)).
Proof.
  intros Hl.
  assert (Hrev : Forall P (rev l)) by now apply Forall_rev.
  assert (Hlast :
            (forall a b, In a l -> In b l ->
                         scalar_eq (key a) (key b) = true -> a = b) ->
            list_sort key true l = Ok (rev (sort_pure key l)) /\
            list_sort key false l = Ok (sort_pure key l)).
  { intros Hd. unfold list_sort.
    rewrite !sort_ascending_pure by assumption. simpl.
    now rewrite sort_pure_rev. }
  destruct reverse.
  - exists (rev (sort_pure key (rev l))).
    split; [|split; [|split; [|split]]].
    + unfold list_sort. now rewrite sort_ascending_pure by assumption.
    + rewrite <- Permutation_rev, <- sort_pure_perm.
      apply Permutation_rev.
    + intros v. unfold with_key. rewrite filter_rev.
      fold (with_key key v (sort_pure key (rev l))).
      rewrite sort_pure_stable by assumption.
      unfold with_key. rewrite filter_rev. apply rev_involutive.
    + unfold descending.
      apply (StronglySorted_rev
               (fun a b => key_before key b a = false)).
      now apply sort_pure_ascending.
    + exact Hlast.
  - exists (sort_pure key l).
    split; [|split; [|split; [|split]]].
    + unfold list_sort. now apply sort_ascending_pure.
    + apply sort_pure_perm.
    + intros v. now apply sort_pure_stable.
    + now apply sort_pure_ascending.
    + exact Hlast.
Qed.
End StableSort.

(** *** The order of numbers *)

Lemma Qltb_asymmetric (x y : Q) : Qltb x y = true -> Qltb y x = false.
Proof.
  unfold Qltb. rewrite negb_true_iff, negb_false_iff.
  intros H. apply Qle_bool_iff.
  destruct (Qlt_le_dec x y) as [Hlt|Hle].
  - now apply Qlt_le_weak.
  - apply Qle_bool_iff in Hle. congruence.
Qed.

Lemma Qltb_transitive (x y z : Q) :
  Qltb y x = false -> Qltb z y = false -> Qltb z x = false.
Proof.
  unfold Qltb. rewrite !negb_false_iff, !Qle_bool_iff. apply Qle_trans.
Qed.

Lemma Qltb_equal (x y v : Q) :
  Qltb x y = true -> Qeq_bool x v = true -> Qeq_bool y v = false.
Proof.
  unfold Qltb. rewrite negb_true_iff. intros Hlt Hx.
  destruct (Qeq_bool y v) eqn:Hy; [|reflexivity].
  apply Qeq_bool_iff in Hx, Hy.
  assert (Hle : Qle_bool y x = true).
  { apply Qle_bool_iff. rewrite Hx, Hy. apply Qle_refl. }
  congruence.
Qed.

Lemma Qltb_total (x y : Q) :
  Qltb x y = false -> Qltb y x = false -> Qeq_bool x y = true.
Proof.
  unfold Qltb. rewrite !negb_false_iff, !Qle_bool_iff, Qeq_bool_iff.
  intros H1 H2. now apply Qle_antisym.
Qed.

Lemma number_of_numeric (a : scalar) :
  is_int_or_float a = true -> exists x, number_of a = Some x.
Proof. destruct a; try discriminate; intros _; now eexists. Qed.

Lemma key_lt_numbers (a b : scalar) (x y : Q) :
  number_of a = Some x -> number_of b = Some y ->
  key_lt a b = Ok (Qltb x y).
Proof.
  destruct a; try discriminate; destruct b; try discriminate;
    simpl; intros Ha Hb; inversion Ha; inversion Hb; reflexivity.
Qed.

Lemma scalar_eq_number (a v : scalar) (x : Q) :
  number_of a = Some x ->
  scalar_eq a v =
  match number_of v with
  | Some y => Qeq_bool x y
  | None => false
  end.
Proof.
  destruct a; try discriminate; simpl; intros Ha; inversion Ha;
    destruct v; reflexivity.
Qed.

(** *** The order of strings *)

Lemma ascii_compare_trans (a b c : ascii) :
  Ascii.compare a b = Lt -> Ascii.compare b c = Lt -> Ascii.compare a c = Lt.
Proof.
  unfold Ascii.compare. rewrite !N.compare_lt_iff. apply N.lt_trans.
Qed.

Lemma string_compare_refl (s : string) : String.compare s s = Eq.
Proof.
  induction s as [|c s IH]; simpl; [reflexivity|].
  unfold Ascii.compare. now rewrite N.compare_refl.
Qed.

Lemma string_compare_trans (a b c : string) :
  String.compare a b = Lt -> String.compare b c = Lt ->
  String.compare a c = Lt.
Proof.
  revert b c. induction a as [|x a IH]; intros [|y b] [|z c]; simpl;
    try discriminate; try reflexivity.
  destruct (Ascii.compare x y) eqn:Exy; try discriminate.
  - apply Ascii.compare_eq_iff in Exy. subst y.
    destruct (Ascii.compare x z); try discriminate; [apply IH|reflexivity].
  - intros _. destruct (Ascii.compare y z) eqn:Eyz; try discriminate.
    + apply Ascii.compare_eq_iff in Eyz. subst z. now rewrite Exy.
    + now rewrite (ascii_compare_trans x y z Exy Eyz).
Qed.

Lemma string_ltb_asymmetric (s t : string) :
  String.ltb s t = true -> String.ltb t s = false.
Proof.
  unfold String.ltb. rewrite (String.compare_antisym t s).
  destruct (String.compare s t); simpl; congruence.
Qed.

Lemma string_ltb_transitive (s t u : string) :
  String.ltb t s = false -> String.ltb u t = false -> String.ltb u s = false.
Proof.
  unfold String.ltb. intros Hts Hut.
  destruct (String.compare u s) eqn:Eus; try reflexivity.
  destruct (String.compare u t) eqn:Eut; try discriminate.
  - apply String.compare_eq_iff in Eut. subst u. now rewrite Eus in Hts.
  - rewrite (String.compare_antisym u t) in Eut.
    destruct (String.compare t u) eqn:Etu; try discriminate.
    now rewrite (string_compare_trans t u s Etu Eus) in Hts.
Qed.

Lemma string_ltb_total (s t : string) :
  String.ltb s t = false -> String.ltb t s = false -> String.eqb s t = true.
Proof.
  unfold String.ltb. rewrite (String.compare_antisym t s).
  destruct (String.compare s t) eqn:E; simpl; try discriminate.
  intros _ _. apply String.compare_eq_iff in E. subst. apply String.eqb_refl.
Qed.

Lemma string_ltb_equal (s t : string) (v : scalar) :
  String.ltb s t = true ->
  scalar_eq (VStr s) v = true -> scalar_eq (VStr t) v = false.
Proof.
  intros Hlt Hv. destruct v as [| | | |u]; try discriminate Hv.
  simpl in *. apply String.eqb_eq in Hv. subst u.
  destruct (String.eqb t s) eqn:E; [|reflexivity].
  apply String.eqb_eq in E. subst t.
  unfold String.ltb in Hlt. rewrite string_compare_refl in Hlt.
  discriminate.
Qed.

Lemma string_of_str (a : scalar) :
  is_str a = true -> exists s, a = VStr s.
Proof. destruct a; try discriminate; intros _; now eexists. Qed.

(** *** [list.sort] on a column of numbers or on a column of strings *)

Section SortedColumn.
Variable key : row -> scalar.

Ltac numbers :=
  repeat match goal with
         | H : is_int_or_float (key ?a) = true |- _ =>
             let x := fresh "x" in
             let E := fresh "E" in
             destruct (number_of_numeric _ H) as [x E]; clear H
         end;
  unfold key_before;
  repeat match goal with
         | Ha : number_of (key ?a) = Some _,
           Hb : number_of (key ?b) = Some _ |- _ =>
             progress rewrite (key_lt_numbers _ _ _ _ Ha Hb) in *
         end.

Lemma list_sort_numbers (reverse : bool) (l : list row) :
  numeric_keys key l ->
  exists sorted : list row,
    list_sort key reverse l = Ok sorted /\
    Permutation l sorted /\
    (forall v, with_key key v sorted = with_key key v l) /\
    (if reverse then descending key sorted else ascending key sorted) /\
    ((forall a b, In a l -> In b l ->
                  scalar_eq (key a) (key b) = true -> a = b) ->
     list_sort key true l = Ok (rev (sort_pure key l)) /\
     list_sort key false l = Ok (sort_pure key l)).
Proof.
  apply list_sort_class.
  - intros a b Ha Hb. numbers. reflexivity.
  - intros a b Ha Hb. numbers. apply Qltb_asymmetric.
  - intros a b c Ha Hb Hc. numbers. apply Qltb_transitive.
  - intros a b v Ha Hb. numbers.
    erewrite !scalar_eq_number by eassumption.
    destruct (number_of v); [apply Qltb_equal|discriminate].
  - intros a b Ha Hb. numbers.
    erewrite scalar_eq_number by eassumption.
    match goal with
    | H : number_of (key b) = Some _ |- _ => rewrite H
    end.
    apply Qltb_total.
Qed.

Ltac strings :=
  repeat match goal with
         | H : is_str (key ?a) = true |- _ =>
             let s := fresh "s" in
             let E := fresh "E" in
             destruct (string_of_str _ H) as [s E]; clear H
         end;
  unfold key_before;
  repeat match goal with
         | E : key ?a = VStr _ |- _ => rewrite E in *; clear E
         end;
  simpl.

Lemma list_sort_strings (reverse : bool) (l : list row) :
  string_keys key l ->
  exists sorted : list row,
    list_sort key reverse l = Ok sorted /\
    Permutation l sorted /\
    (forall v, with_key key v sorted = with_key key v l) /\
    (if reverse then descending key sorted else ascending key sorted) /\
    ((forall a b, In a l -> In b l ->
                  scalar_eq (key a) (key b) = true -> a = b) ->
     list_sort key true l = Ok (rev (sort_pure key l)) /\
     list_sort key false l = Ok (sort_pure key l)).
Proof.
  apply list_sort_class.
  - intros a b Ha Hb. strings. reflexivity.
  - intros a b Ha Hb. strings. apply string_ltb_asymmetric.
  - intros a b c Ha Hb Hc. strings. apply string_ltb_transitive.
  - intros a b v Ha Hb. strings. apply string_ltb_equal.
  - intros a b Ha Hb. strings. apply string_ltb_total.
Qed.
End SortedColumn.

(** C5 (as amended).  When [orderBy] names a column of the table and the
    sort keys of the rows all compare (all numbers, or all strings), the
    ordering stage returns a permutation of its input in which rows with
    equal keys keep their input order, in ascending key order, or in
    descending key order for [DESC]; the [DESC] result is the reverse of
    the ascending one when no two different rows have equal keys. *)
Theorem order_by_is_stable
        (repr : json -> string) (q : dict json) (df : DataFrame)
        (o : dict json) (c : string) (d : json) (rows : list row) :
  dict_get "orderBy" q = Some (JDict o) ->
  dict_get "column" o = Some (JStr c) ->
  dict_get "direction" o = Some d ->
  In c (columns df) ->
  comparable_keys (row_get c) rows ->
  exists sorted : list row,
    apply_order_by repr q df rows = (Ok sorted, []) /\
    Permutation rows sorted /\
    (forall v, with_key (row_get c) v sorted = with_key (row_get c) v rows) /\
    (if is_desc d
     then descending (row_get c) sorted
     else ascending (row_get c) sorted) /\
    ((forall a b, In a rows -> In b rows ->
                  scalar_eq (row_get c a) (row_get c b) = true -> a = b) ->
     is_desc d = true ->
     forall asc, list_sort (row_get c) false rows = Ok asc ->
                 sorted = rev asc).
Proof.
  intros Ho Hc Hd Hin Hkeys.
  assert (Hstage : apply_order_by repr q df rows
                   = (list_sort (row_get c) (is_desc d) rows, [])).
  { unfold apply_order_by. rewrite Ho.
    assert (Ht : truthy (JDict o) = true)
      by (destruct o; [discriminate Hc|reflexivity]).
    rewrite Ht. unfold subscript. rewrite Hc, Hd. simpl.
    apply existsb_eqb_In in Hin. rewrite Hin. reflexivity. }
  assert (Hsort :
            exists sorted : list row,
              list_sort (row_get c) (is_desc d) rows = Ok sorted /\
              Permutation rows sorted /\
              (forall v, with_key (row_get c) v sorted
                         = with_key (row_get c) v rows) /\
              (if is_desc d
               then descending (row_get c) sorted
               else ascending (row_get c) sorted) /\
              ((forall a b, In a rows -> In b rows ->
                            scalar_eq (row_get c a) (row_get c b) = true ->
                            a = b) ->
               list_sort (row_get c) true rows
               = Ok (rev (sort_pure (row_get c) rows)) /\
               list_sort (row_get c) false rows
               = Ok (sort_pure (row_get c) rows)))
    by (destruct Hkeys;
        [now apply list_sort_numbers|now apply list_sort_strings]).
  destruct Hsort as [sorted [Hs [Hp [Hst [Hord Hrev]]]]].
  exists sorted. rewrite Hstage, Hs.
  split; [reflexivity|]. split; [exact Hp|]. split; [exact Hst|].
  split; [exact Hord|].
  intros Hdistinct Hdesc asc Hasc.
  destruct (Hrev Hdistinct) as [Htrue Hfalse].
  rewrite Hdesc in Hs. congruence.
Qed.

Lemma order_by_is_stable_witness :
  exists sorted : list row,
    apply_order_by repr_atom (Ties.by_price "DESC") Ties.catalogue
      (to_dict_records Ties.catalogue)
    = (Ok sorted, []) /\
    Permutation (to_dict_records Ties.catalogue) sorted /\
    with_key (row_get "price") (VInt 150) sorted
    = [Ties.widget; Ties.gizmo] /\
    with_key (row_get "price") (VInt 250) sorted = [Ties.dear_gadget] /\
    descending (row_get "price") sorted.
Proof.
  destruct (order_by_is_stable repr_atom (Ties.by_price "DESC")
              Ties.catalogue
              [("column", JStr "price"); ("direction", JStr "DESC")]
              "price" (JStr "DESC") (to_dict_records Ties.catalogue)
              eq_refl eq_refl eq_refl)
    as [sorted [Hs [Hp [Hst [Hd _]]]]].
  - simpl. tauto.
  - left. repeat constructor.
  - exists sorted. split; [exact Hs|]. split; [exact Hp|].
    split; [exact (Hst (VInt 150))|]. split; [exact (Hst (VInt 250))|].
    exact Hd.
Defined.

(** Ordering an existing column in which a number sits next to text is
    no sort at all: the run raises [TypeError], in either direction. *)
Lemma order_by_mixed_column_raises :
  In "price" (columns Ties.mixed_price) /\
  execute_query repr_atom ascii_lower (Ties.by_price "ASC") Ties.mixed_price
  = (Raise TypeError, []) /\
  execute_query repr_atom ascii_lower (Ties.by_price "DESC") Ties.mixed_price
  = (Raise TypeError, []).
Proof. split; [simpl; tauto|]. split; reflexivity. Qed.

(** With equal keys the [DESC] result keeps the input order of the equal
    rows: it is in descending key order and is not the ascending list
    read backwards. *)
Example descending_keeps_equal_keys_in_order :
  execute_query repr_atom ascii_lower (Ties.by_price "ASC") Ties.catalogue
  = (Ok [Ties.widget; Ties.gizmo; Ties.dear_gadget], []) /\
  execute_query repr_atom ascii_lower (Ties.by_price "DESC") Ties.catalogue
  = (Ok [Ties.dear_gadget; Ties.widget; Ties.gizmo], []).
Proof. split; reflexivity. Qed.

(* ------------------------------------------------------------------ *)
(** ** Suffixed keys: what each one tests *)

Lemma numeric_cell (x : scalar) :
  is_int_or_float x = true <-> exists n, number_of x = Some n.
Proof.
  destruct x; simpl; split; try discriminate; try (intros _; now eexists);
    try reflexivity; intros [n H]; discriminate H.
Qed.

Lemma compare_cell (x : scalar) (value : json) (n t : Q) :
  number_of x = Some n -> json_number_of value = Some t ->
  py_gt x value = Ok (Qltb t n) /\ py_lt x value = Ok (Qltb n t).
Proof. unfold py_gt, py_lt. now intros -> ->. Qed.

(** X1.  For a column whose name does not contain the suffix text, the
    key [col_gt] (resp. [col_lt]) with a numeric threshold addresses
    column [col]: a row passes iff it has the column, the cell is a number
    and it is strictly above (resp. below) the threshold; nothing is
    raised. *)
Theorem threshold_on_clean_column
        (repr : json -> string) (lower : string -> string)
        (col : string) (value : json) (item : row)
        (t : Q) :
  json_number_of value = Some t ->
  (str_contains "_gt" col = false ->
   (condition repr lower (col ++ "_gt") value item = Ok true <->
    exists x n, dict_get col item = Some x /\ number_of x = Some n /\
                (t < n)%Q) /\
   (exists b, condition repr lower (col ++ "_gt") value item = Ok b)) /\
  (str_contains "_lt" col = false ->
   (condition repr lower (col ++ "_lt") value item = Ok true <->
    exists x n, dict_get col item = Some x /\ number_of x = Some n /\
                (n < t)%Q) /\
   (exists b, condition repr lower (col ++ "_lt") value item = Ok b)).
Proof.
  intros Ht. split; intros Hcol.
  - rewrite (condition_gt_key repr lower col value item Hcol).
    destruct (dict_get col item) as [x|].
    + destruct (is_int_or_float x) eqn:Hx.
      * destruct (proj1 (numeric_cell x) Hx) as [n Hn].
        destruct (compare_cell x value n t Hn Ht) as [-> _].
        split; [|now eexists]. split.
        -- intros H. exists x, n. repeat split; try assumption.
           apply Qltb_lt. now inversion H.
        -- intros [y [m [Hy [Hm Hlt]]]]. inversion Hy; subst y.
           rewrite Hn in Hm. inversion Hm; subst m.
           apply Qltb_lt in Hlt. now rewrite Hlt.
      * split; [|now eexists]. split; [discriminate|].
        intros [y [m [Hy [Hm _]]]]. inversion Hy; subst y.
        assert (is_int_or_float x = true)
          by (apply numeric_cell; now exists m).
        congruence.
    + split; [|now eexists]. split; [discriminate|].
      intros [y [m [Hy _]]]. discriminate Hy.
  - rewrite (condition_lt_key repr lower col value item Hcol).
    destruct (dict_get col item) as [x|].
    + destruct (is_int_or_float x) eqn:Hx.
      * destruct (proj1 (numeric_cell x) Hx) as [n Hn].
        destruct (compare_cell x value n t Hn Ht) as [_ ->].
        split; [|now eexists]. split.
        -- intros H. exists x, n. repeat split; try assumption.
           apply Qltb_lt. now inversion H.
        -- intros [y [m [Hy [Hm Hlt]]]]. inversion Hy; subst y.
           rewrite Hn in Hm. inversion Hm; subst m.
           apply Qltb_lt in Hlt. now rewrite Hlt.
      * split; [|now eexists]. split; [discriminate|].
        intros [y [m [Hy [Hm _]]]]. inversion Hy; subst y.
        assert (is_int_or_float x = true)
          by (apply numeric_cell; now exists m).
        congruence.
    + split; [|now eexists]. split; [discriminate|].
      intros [y [m [Hy _]]]. discriminate Hy.
Qed.

Lemma threshold_on_clean_column_witness :
  exists b, condition repr_atom ascii_lower "price_lt" (JInt 200) Scenarios.widget = Ok b.
Proof.
  apply (proj2 (proj2 (threshold_on_clean_column repr_atom ascii_lower "price" (JInt 200)
                         Scenarios.widget (inject_Z 200) eq_refl)
                      eq_refl)).
Defined.

(** X2.  For a column whose name does not contain [_contains], the key
    [col_contains] passes a row iff the row has the column, the cell is a
    string, and the lower-cased text of the operand occurs in the
    lower-cased cell; the test never raises and only depends on the
    operand through its lower-cased text. *)
Theorem contains_on_clean_column
        (repr : json -> string) (lower : string -> string)
        (col : string) (value : json) (item : row) :
  str_contains "_contains" col = false ->
  (condition repr lower (col ++ "_contains") value item = Ok true <->
   exists s pre post,
     dict_get col item = Some (VStr s) /\
     lower s = (pre ++ lower (py_str repr value) ++ post)%string) /\
  (exists b, condition repr lower (col ++ "_contains") value item = Ok b) /\
  (forall value' : json,
      lower (py_str repr value') = lower (py_str repr value) ->
      condition repr lower (col ++ "_contains") value' item
      = condition repr lower (col ++ "_contains") value item).
Proof.
  intros Hcol. split; [|split].
  - rewrite (condition_contains_key repr lower col value item Hcol).
    destruct (dict_get col item) as [[| | | |s]|];
      try (split; [discriminate|];
           intros [s' [pre [post [H _]]]]; discriminate H).
    split.
    + intros H. inversion H as [Hc].
      apply str_contains_occurs in Hc. destruct Hc as [pre [post Hc]].
      now exists s, pre, post.
    + intros [s' [pre [post [Hs Hc]]]]. inversion Hs; subst s'.
      f_equal. apply str_contains_occurs. now exists pre, post.
  - rewrite (condition_contains_key repr lower col value item Hcol).
    destruct (dict_get col item) as [[| | | |s]|]; now eexists.
  - intros value' Hsame.
    rewrite !(condition_contains_key repr lower col _ item Hcol).
    now rewrite Hsame.
Qed.

Lemma contains_on_clean_column_witness :
  exists b,
    condition repr_atom ascii_lower "name_contains" (JStr "WID") Scenarios.widget = Ok b.
Proof.
  apply (proj1 (proj2 (contains_on_clean_column repr_atom ascii_lower "name" (JStr "WID")
                         Scenarios.widget eq_refl))).
Defined.

(** X3.  For a column whose name does not contain [_in], the key [col_in]
    with a list operand passes a row iff the row has the column and the
    cell equals (under [==]) some element of the list; an empty list
    passes no row.  An operand that is a number, a boolean or null raises
    [TypeError] on every row that has the column and is a plain mismatch
    on a row that lacks it. *)
Theorem membership_on_clean_column
        (repr : json -> string) (lower : string -> string)
        (col : string) (item : row) :
  str_contains "_in" col = false ->
  (forall l : list json,
      condition repr lower (col ++ "_in") (JList l) item = Ok true <->
      exists x v, dict_get col item = Some x /\ In v l /\ loosely_equal x v) /\
  condition repr lower (col ++ "_in") (JList []) item = Ok false /\
  (forall value : json,
      is_json_list value = false ->
      is_json_str value = false ->
      match value with JDict _ => False | _ => True end ->
      condition repr lower (col ++ "_in") value item
      = if dict_has col item then Raise TypeError else Ok false).
Proof.
  intros Hcol. split; [|split].
  - intros l. rewrite (condition_in_key repr lower col (JList l) item Hcol).
    destruct (dict_get col item) as [x|].
    + simpl. split.
      * intros H. inversion H as [He]. apply existsb_exists in He.
        destruct He as [v [Hv He]]. exists x, v.
        repeat split; try assumption. now apply py_eq_loosely_equal.
      * intros [y [v [Hy [Hv He]]]]. inversion Hy; subst y. f_equal.
        apply existsb_exists. exists v. split; [exact Hv|].
        now apply py_eq_loosely_equal.
    + split; [discriminate|]. intros [y [v [Hy _]]]. discriminate Hy.
  - rewrite (condition_in_key repr lower col (JList []) item Hcol).
    destruct (dict_get col item); reflexivity.
  - intros value Hl Hs Hd.
    rewrite (condition_in_key repr lower col value item Hcol).
    unfold dict_has. destruct (dict_get col item) as [x|]; [|reflexivity].
    destruct value; try discriminate; try contradiction; reflexivity.
Qed.

Lemma membership_on_clean_column_witness :
  condition repr_atom ascii_lower "stock_in" (JList []) Scenarios.gadget = Ok false.
Proof.
  apply (proj1 (proj2 (membership_on_clean_column repr_atom ascii_lower "stock"
                         Scenarios.gadget eq_refl))).
Defined.

(* ------------------------------------------------------------------ *)
(** ** Operands and [where] values of the wrong type *)

Lemma select_each_none {A : Type} (keep : A -> result bool) (xs : list A) :
  (forall x, In x xs -> keep x = Ok false) ->
  select_each keep xs = Ok [].
Proof.
  intros H. rewrite (select_each_total keep (fun _ => false) xs H).
  f_equal. clear H. induction xs as [|x xs IH]; [reflexivity|exact IH].
Qed.

(** The loop raises as soon as one row raises, whatever the rows before
    it did. *)
Lemma select_each_raise {A : Type} (keep : A -> result bool) (e : exn)
      (xs : list A) :
  (forall x e', In x xs -> keep x = Raise e' -> e' = e) ->
  Exists (fun x => keep x = Raise e) xs ->
  select_each keep xs = Raise e.
Proof.
  intros Honly Hex. induction xs as [|x xs IH]; [inversion Hex|].
  simpl. destruct (keep x) as [b|e'] eqn:Ex.
  - simpl. rewrite IH.
    + reflexivity.
    + intros y e' Hy. apply Honly. now right.
    + inversion Hex; subst; [congruence|assumption].
  - simpl. f_equal. apply (Honly x e'); [now left|exact Ex].
Qed.

(** X4.  A threshold that is not a number is only noticed on rows that
    hold a number in the column: with a single [col_gt] entry the filter
    raises [TypeError] as soon as some row has a numeric cell there, and
    returns no row at all when none has. *)
Theorem non_numeric_threshold
        (repr : json -> string) (lower : string -> string)
        (q : dict json) (col : string) (value : json)
        (rows : list row) :
  str_contains "_gt" col = false ->
  dict_get "where" q = Some (JDict [((col ++ "_gt")%string, value)]) ->
  json_number_of value = None ->
  (Forall (fun item => is_int_or_float (row_get col item) = false) rows ->
   apply_where repr lower q rows = Ok []) /\
  (Exists (fun item => is_int_or_float (row_get col item) = true) rows ->
   apply_where repr lower q rows = Raise TypeError).
Proof.
  intros Hcol Hwhere Hvalue.
  rewrite (apply_where_nonempty repr lower q _ rows Hwhere) by discriminate.
  assert (Hkeep : forall item,
             row_matches repr lower [((col ++ "_gt")%string, value)] item
             = if is_int_or_float (row_get col item)
               then Raise TypeError else Ok false).
  { intros item. cbn [row_matches].
    rewrite (condition_gt_key repr lower col value item Hcol).
    unfold row_get. destruct (dict_get col item) as [x|]; [|reflexivity].
    destruct (is_int_or_float x) eqn:Hx; [|reflexivity].
    unfold py_gt. rewrite Hvalue.
    destruct (number_of x); reflexivity. }
  split.
  - intros Hnone. apply select_each_none. intros item Hin.
    rewrite Forall_forall in Hnone. now rewrite Hkeep, (Hnone item Hin).
  - intros Hsome. apply select_each_raise.
    + intros item e' _. rewrite Hkeep.
      destruct (is_int_or_float (row_get col item)); congruence.
    + apply Exists_exists in Hsome. destruct Hsome as [item [Hin Hnum]].
      apply Exists_exists. exists item. split; [exact Hin|].
      now rewrite Hkeep, Hnum.
Qed.

Lemma non_numeric_threshold_witness :
  apply_where repr_atom ascii_lower
    [("where", JDict [("price_gt", JStr "cheap")])]
    (to_dict_records Scenarios.products)
  = Raise TypeError.
Proof.
  apply (proj2 (non_numeric_threshold repr_atom ascii_lower
                  [("where", JDict [("price_gt", JStr "cheap")])]
                  "price" (JStr "cheap")
                  (to_dict_records Scenarios.products)
                  eq_refl eq_refl eq_refl)).
  apply Exists_cons_hd. reflexivity.
Defined.

(** X5.  A [where] value that is falsy (null, [0], an empty string, list
    or mapping) is ignored and every row passes.  A truthy value that is
    not a mapping raises [AttributeError] on the first row, so it goes
    unnoticed on a table without rows. *)
Theorem where_must_be_a_mapping
        (repr : json -> string) (lower : string -> string)
        (q : dict json) (w : json)
        (rows : list row) :
  dict_get "where" q = Some w ->
  (truthy w = false -> apply_where repr lower q rows = Ok rows) /\
  (truthy w = true ->
   (forall d, w <> JDict d) ->
   apply_where repr lower q rows =
   match rows with
   | [] => Ok []
   | _ :: _ => Raise AttributeError
   end).
Proof.
  intros Hw. unfold apply_where. rewrite Hw. split.
  - now intros ->.
  - intros -> Hnot. destruct rows as [|item rows]; [reflexivity|].
    simpl. destruct w; try reflexivity. now destruct (Hnot d).
Qed.

Lemma where_must_be_a_mapping_witness :
  apply_where repr_atom ascii_lower [("where", JStr "price < 200")]
    (to_dict_records Scenarios.products)
  = Raise AttributeError.
Proof.
  apply (proj2 (where_must_be_a_mapping repr_atom ascii_lower
                  [("where", JStr "price < 200")] (JStr "price < 200")
                  (to_dict_records Scenarios.products) eq_refl)).
  - reflexivity.
  - discriminate.
Defined.

(* ------------------------------------------------------------------ *)
(** ** Ordering: what it keeps and when it raises *)

Section SortAnyKeys.
Variable key : row -> scalar.

Lemma insert_row_perm (x : row) (l r : list row) :
  insert_row key x l = Ok r -> Permutation (x :: l) r.
Proof.
  revert r. induction l as [|y l IH]; intros r H; simpl in H.
  - inversion H. reflexivity.
  - destruct (key_lt (key y) (key x)) as [[|]|e]; simpl in H;
      try discriminate H.
    + destruct (insert_row key x l) as [t|e]; simpl in H;
        [|discriminate H].
      inversion H; subst r. rewrite perm_swap. apply perm_skip.
      now apply IH.
    + inversion H. reflexivity.
Qed.

Lemma sort_ascending_perm (l r : list row) :
  sort_ascending key l = Ok r -> Permutation l r.
Proof.
  revert r. induction l as [|x l IH]; intros r H; simpl in H.
  - inversion H. reflexivity.
  - destruct (sort_ascending key l) as [s|e]; simpl in H; [|discriminate H].
    rewrite <- (insert_row_perm x s r H). apply perm_skip. now apply IH.
Qed.

Lemma list_sort_perm (reverse : bool) (l r : list row) :
  list_sort key reverse l = Ok r -> Permutation l r.
Proof.
  unfold list_sort. destruct reverse; [|apply sort_ascending_perm].
  destruct (sort_ascending key (rev l)) as [s|e] eqn:E; simpl;
    [|discriminate].
  intros H. inversion H; subst r.
  rewrite <- Permutation_rev. rewrite (Permutation_rev l).
  now apply sort_ascending_perm.
Qed.

Lemma key_lt_raises (a b : scalar) (e : exn) :
  key_lt a b = Raise e -> e = TypeError.
Proof.
  unfold key_lt.
  destruct a, b; simpl; intros H; try discriminate H; now inversion H.
Qed.

Lemma key_lt_same_class (a b : scalar) (r : bool) :
  key_lt a b = Ok r ->
  (is_int_or_float a = true /\ is_int_or_float b = true) \/
  (is_str a = true /\ is_str b = true).
Proof.
  destruct a, b; simpl; intros H; try discriminate H; tauto.
Qed.

Lemma insert_row_raises (x : row) (l : list row) (e : exn) :
  insert_row key x l = Raise e -> e = TypeError.
Proof.
  induction l as [|y l IH]; simpl; [discriminate|].
  destruct (key_lt (key y) (key x)) as [[|]|e'] eqn:E; simpl.
  - destruct (insert_row key x l) as [t|e']; simpl; [discriminate|].
    intros H. inversion H; subst e'. now apply IH.
  - discriminate.
  - intros H. inversion H; subst e'. now apply key_lt_raises in E.
Qed.

Lemma sort_ascending_raises (l : list row) (e : exn) :
  sort_ascending key l = Raise e -> e = TypeError.
Proof.
  induction l as [|x l IH]; simpl; [discriminate|].
  destruct (sort_ascending key l) as [s|e']; simpl.
  - apply insert_row_raises.
  - intros H. inversion H; subst e'. now apply IH.
Qed.

Lemma class_exclusive (a : scalar) :
  is_int_or_float a = true -> is_str a = true -> False.
Proof. destruct a; discriminate. Qed.

(** A sort that returns has compared every row with some other row. *)
Lemma sort_ascending_comparable (l s : list row) :
  sort_ascending key l = Ok s ->
  (List.length l <= 1)%nat \/ comparable_keys key l.
Proof.
  revert s. induction l as [|x l IH]; intros s H; [left; simpl; lia|].
  simpl in H.
  destruct (sort_ascending key l) as [s'|e] eqn:Es; simpl in H;
    [|discriminate H].
  destruct l as [|y l]; [left; simpl; lia|]. right.
  pose proof (sort_ascending_perm _ _ Es) as Hp.
  destruct s' as [|z s'];
    [apply Permutation_sym, Permutation_nil in Hp; discriminate Hp|].
  simpl in H.
  destruct (key_lt (key z) (key x)) as [b|e] eqn:Ezx; [|discriminate H].
  assert (Hz : In z (y :: l))
    by (apply (Permutation_in z (Permutation_sym Hp)); now left).
  apply key_lt_same_class in Ezx.
  unfold comparable_keys, numeric_keys, string_keys.
  destruct (IH _ eq_refl) as [Hlen|[Hnum|Hstr]].
  - assert (l = []) by (destruct l; [reflexivity|simpl in Hlen; lia]).
    subst l. destruct Hz as [<-|[]].
    destruct Ezx as [[Hy Hx]|[Hy Hx]];
      [left|right]; repeat constructor; assumption.
  - pose proof (proj1 (Forall_forall _ _) Hnum z Hz) as Hzn.
    destruct Ezx as [[_ Hx]|[Hzs _]].
    + left. now constructor.
    + destruct (class_exclusive _ Hzn Hzs).
  - pose proof (proj1 (Forall_forall _ _) Hstr z Hz) as Hzs.
    destruct Ezx as [[Hzn _]|[_ Hx]].
    + destruct (class_exclusive _ Hzn Hzs).
    + right. now constructor.
Qed.

Lemma comparable_keys_rev (l : list row) :
  comparable_keys key (rev l) -> comparable_keys key l.
Proof.
  unfold comparable_keys, numeric_keys, string_keys.
  intros [H|H]; [left|right]; apply Forall_rev in H;
    now rewrite rev_involutive in H.
Qed.

Lemma list_sort_returns (reverse : bool) (l : list row) :
  (exists s, list_sort key reverse l = Ok s) <->
  (List.length l <= 1)%nat \/ comparable_keys key l.
Proof.
  split.
  - intros [s H]. unfold list_sort in H. destruct reverse.
    + destruct (sort_ascending key (rev l)) as [s'|e] eqn:E;
        [|discriminate H].
      destruct (sort_ascending_comparable _ _ E) as [Hl|Hc].
      * left. now rewrite length_rev in Hl.
      * right. now apply comparable_keys_rev.
    + now apply sort_ascending_comparable with s.
  - intros [Hlen|[Hnum|Hstr]].
    + destruct l as [|x [|y l]]; [| |simpl in Hlen; lia];
        destruct reverse; eexists; reflexivity.
    + destruct (list_sort_numbers key reverse l Hnum) as [s [Hs _]].
      now exists s.
    + destruct (list_sort_strings key reverse l Hstr) as [s [Hs _]].
      now exists s.
Qed.

Lemma list_sort_raises (reverse : bool) (l : list row) (e : exn) :
  list_sort key reverse l = Raise e -> e = TypeError.
Proof.
  unfold list_sort. destruct reverse; [|apply sort_ascending_raises].
  destruct (sort_ascending key (rev l)) as [s|e'] eqn:E; simpl;
    [discriminate|].
  intros H. inversion H; subst e'. now apply sort_ascending_raises in E.
Qed.
End SortAnyKeys.

Lemma apply_order_by_sorts
      (repr : json -> string) (q : dict json) (df : DataFrame)
      (o : dict json) (c : string) (d : json) (rows : list row) :
  dict_get "orderBy" q = Some (JDict o) ->
  dict_get "column" o = Some (JStr c) ->
  dict_get "direction" o = Some d ->
  In c (columns df) ->
  apply_order_by repr q df rows
  = (list_sort (row_get c) (is_desc d) rows, []).
Proof.
  intros Ho Hc Hd Hin. unfold apply_order_by. rewrite Ho.
  assert (Ht : truthy (JDict o) = true)
    by (destruct o; [discriminate Hc|reflexivity]).
  rewrite Ht. unfold subscript. rewrite Hc, Hd. simpl.
  apply existsb_eqb_In in Hin. rewrite Hin. reflexivity.
Qed.

Lemma apply_order_by_perm
      (repr : json -> string) (q : dict json) (df : DataFrame)
      (rows sorted : list row) (ws : list string) :
  apply_order_by repr q df rows = (Ok sorted, ws) ->
  Permutation rows sorted.
Proof.
  intros H. unfold apply_order_by in H.
  destruct (dict_get "orderBy" q) as [o|]; [|now inversion H].
  destruct (truthy o); [|now inversion H].
  destruct (subscript o "column") as [column|e]; [|discriminate H].
  destruct (subscript o "direction") as [direction|e]; [|discriminate H].
  destruct (column_exists column df) as [[|]|e]; try discriminate H.
  - inversion H as [[Hs Hw]]. now apply list_sort_perm in Hs.
  - now inversion H.
Qed.

Lemma list_sort_comparable (key : row -> scalar) (reverse : bool)
      (l : list row) :
  comparable_keys key l ->
  exists sorted : list row,
    list_sort key reverse l = Ok sorted /\
    Permutation l sorted /\
    (if reverse then descending key sorted else ascending key sorted).
Proof.
  intros [Hn|Hs].
  - destruct (list_sort_numbers key reverse l Hn)
      as [sorted [H1 [H2 [_ [H3 _]]]]]. now exists sorted.
  - destruct (list_sort_strings key reverse l Hs)
      as [sorted [H1 [H2 [_ [H3 _]]]]]. now exists sorted.
Qed.

(** X6.  Whatever the query and the cells, an ordering stage that returns
    hands back a permutation of its input: it neither drops nor repeats
    a row. *)
Theorem ordering_keeps_the_rows
        (repr : json -> string) (q : dict json) (df : DataFrame)
        (rows sorted : list row) (ws : list string) :
  apply_order_by repr q df rows = (Ok sorted, ws) ->
  Permutation rows sorted /\ List.length sorted = List.length rows.
Proof.
  intros H. pose proof (apply_order_by_perm repr q df rows sorted ws H) as Hp.
  split; [exact Hp|]. symmetry. now apply Permutation_length.
Qed.

Lemma ordering_keeps_the_rows_witness :
  Permutation (to_dict_records Scenarios.products)
              [Scenarios.gadget; Scenarios.widget] /\
  List.length [Scenarios.gadget; Scenarios.widget]
  = List.length (to_dict_records Scenarios.products).
Proof.
  apply (ordering_keeps_the_rows repr_atom (Ties.by_price "DESC")
           Scenarios.products (to_dict_records Scenarios.products)
           [Scenarios.gadget; Scenarios.widget] []).
  reflexivity.
Defined.

(** X7.  When [orderBy] names a column of the table, the ordering stage
    returns iff there is at most one row or the sort keys all compare
    (all numbers, or all strings); otherwise, for instance when the
    column holds a number next to text, or [None] next to either, it
    raises [TypeError], and it raises nothing else. *)
Theorem ordering_raises_on_mixed_keys
        (repr : json -> string) (q : dict json) (df : DataFrame)
        (o : dict json) (c : string) (d : json) (rows : list row) :
  dict_get "orderBy" q = Some (JDict o) ->
  dict_get "column" o = Some (JStr c) ->
  dict_get "direction" o = Some d ->
  In c (columns df) ->
  ((exists sorted, apply_order_by repr q df rows = (Ok sorted, [])) <->
   (List.length rows <= 1)%nat \/ comparable_keys (row_get c) rows) /\
  (apply_order_by repr q df rows = (Raise TypeError, []) <->
   (2 <= List.length rows)%nat /\ ~ comparable_keys (row_get c) rows).
Proof.
  intros Ho Hc Hd Hin.
  rewrite (apply_order_by_sorts repr q df o c d rows Ho Hc Hd Hin).
  pose proof (list_sort_returns (row_get c) (is_desc d) rows) as Hret.
  split.
  - rewrite <- Hret. split; intros [s H]; exists s; congruence.
  - split.
    + intros H. split.
      * destruct (le_lt_dec (List.length rows) 1) as [Hl|Hl]; [|lia].
        destruct (proj2 Hret (or_introl Hl)) as [s Hs]. congruence.
      * intros Hcmp. destruct (proj2 Hret (or_intror Hcmp)) as [s Hs].
        congruence.
    + intros [Hlen Hnot].
      destruct (list_sort (row_get c) (is_desc d) rows) as [s|e] eqn:E.
      * destruct (proj1 Hret (ex_intro _ s eq_refl)) as [Hl|Hcmp];
          [lia|contradiction].
      * now rewrite (list_sort_raises _ _ _ _ E).
Qed.

Lemma ordering_raises_on_mixed_keys_witness :
  exists sorted,
    apply_order_by repr_atom (Ties.by_price "ASC") Scenarios.products
      (to_dict_records Scenarios.products)
    = (Ok sorted, []).
Proof.
  apply (proj1 (ordering_raises_on_mixed_keys repr_atom
                  (Ties.by_price "ASC") Scenarios.products
                  [("column", JStr "price"); ("direction", JStr "ASC")]
                  "price" (JStr "ASC") (to_dict_records Scenarios.products)
                  eq_refl eq_refl eq_refl
                  ltac:(simpl; tauto))).
  right. left. repeat constructor.
Defined.

(* ------------------------------------------------------------------ *)
(** ** Ordering then limiting *)

Lemma StronglySorted_app_inv {A : Type} (R : A -> A -> Prop)
      (l1 l2 : list A) :
  StronglySorted R (l1 ++ l2) ->
  forall a b, In a l1 -> In b l2 -> R a b.
Proof.
  induction l1 as [|x l1 IH]; intros H a b Ha Hb; [destruct Ha|].
  simpl in H. inversion H as [|? ? Hs Hall]; subst.
  destruct Ha as [<-|Ha].
  - rewrite Forall_forall in Hall. apply Hall, in_or_app. now right.
  - now apply IH.
Qed.

Lemma apply_columns_skipped (q : dict json) (rows : list row) :
  projection_skipped q = true -> apply_columns q rows = Ok rows.
Proof.
  unfold projection_skipped, apply_columns.
  destruct (dict_get "columns" q) as [cs|]; [|reflexivity].
  destruct (truthy cs); simpl; [|reflexivity].
  destruct (first_element cs) as [first|e]; [|discriminate].
  simpl. now intros ->.
Qed.

(** X8.  Ordering comes before the limit: with a sortable [orderBy]
    column, no projection and an integer limit [k >= 0], the run returns
    [min k n] of the [n] filtered rows, and for [DESC] no returned row has
    a smaller key than a row that was cut off (for any other direction,
    no larger key). *)
Theorem limit_keeps_the_top_rows
        (repr : json -> string) (lower : string -> string)
        (q : dict json) (df : DataFrame)
        (o : dict json) (c : string) (d : json) (filtered : list row)
        (k : Z) :
  apply_where repr lower q (to_dict_records df) = Ok filtered ->
  dict_get "orderBy" q = Some (JDict o) ->
  dict_get "column" o = Some (JStr c) ->
  dict_get "direction" o = Some d ->
  In c (columns df) ->
  comparable_keys (row_get c) filtered ->
  projection_skipped q = true ->
  dict_get "limit" q = Some (JInt k) ->
  (0 <= k)%Z ->
  exists out rest : list row,
    execute_query repr lower q df = (Ok out, []) /\
    Permutation filtered (out ++ rest) /\
    List.length out = Nat.min (Z.to_nat k) (List.length filtered) /\
    (forall a b, In a out -> In b rest ->
                 if is_desc d
                 then key_before (row_get c) a b = false
                 else key_before (row_get c) b a = false).
Proof.
  intros Hwhere Ho Hc Hd Hin Hkeys Hskip Hlimit Hk.
  destruct (list_sort_comparable (row_get c) (is_desc d) filtered Hkeys)
    as [sorted [Hsort [Hperm Hord]]].
  assert (Hsorted : apply_order_by repr q df filtered = (Ok sorted, []))
    by (rewrite (apply_order_by_sorts repr q df o c d filtered Ho Hc Hd Hin);
        now rewrite Hsort).
  exists (firstn (Z.to_nat k) sorted), (skipn (Z.to_nat k) sorted).
  split; [|split; [|split]].
  - rewrite execute_query_stages, Hwhere, Hsorted.
    rewrite (apply_columns_skipped q sorted Hskip). simpl.
    unfold apply_limit. rewrite Hlimit.
    now rewrite slice_to_nonneg by exact Hk.
  - now rewrite firstn_skipn.
  - rewrite length_firstn. now rewrite (Permutation_length Hperm).
  - intros a b Ha Hb. rewrite <- (firstn_skipn (Z.to_nat k) sorted) in Hord.
    destruct (is_desc d).
    + exact (StronglySorted_app_inv _ _ _ Hord a b Ha Hb).
    + exact (StronglySorted_app_inv _ _ _ Hord a b Ha Hb).
Qed.

Lemma limit_keeps_the_top_rows_witness :
  exists out rest : list row,
    execute_query repr_atom ascii_lower
      [("columns", JList [JStr "*"]);
       ("orderBy", JDict [("column", JStr "price");
                          ("direction", JStr "DESC")]);
       ("limit", JInt 1)]
      Scenarios.products
    = (Ok out, []) /\
    Permutation (to_dict_records Scenarios.products) (out ++ rest) /\
    List.length out
    = Nat.min (Z.to_nat 1) (List.length (to_dict_records Scenarios.products)) /\
    (forall a b, In a out -> In b rest ->
                 if is_desc (JStr "DESC")
                 then key_before (row_get "price") a b = false
                 else key_before (row_get "price") b a = false).
Proof.
  apply (limit_keeps_the_top_rows repr_atom ascii_lower
           [("columns", JList [JStr "*"]);
            ("orderBy", JDict [("column", JStr "price");
                               ("direction", JStr "DESC")]);
            ("limit", JInt 1)]
           Scenarios.products
           [("column", JStr "price"); ("direction", JStr "DESC")]
           "price" (JStr "DESC") (to_dict_records Scenarios.products) 1%Z).
  - reflexivity.
  - reflexivity.
  - reflexivity.
  - reflexivity.
  - simpl. tauto.
  - left. repeat constructor.
  - reflexivity.
  - reflexivity.
  - lia.
Defined.

(* ------------------------------------------------------------------ *)
(** ** Projection: row count and idempotence *)

Lemma for_each_length {A B : Type} (f : A -> result B) (xs : list A)
      (ys : list B) :
  for_each f xs = Ok ys -> List.length ys = List.length xs.
Proof.
  revert ys. induction xs as [|x xs IH]; intros ys H; simpl in H.
  - now inversion H.
  - destruct (f x) as [y|e]; simpl in H; [|discriminate H].
    destruct (for_each f xs) as [zs|e]; simpl in H; [|discriminate H].
    inversion H. simpl. now rewrite (IH zs eq_refl).
Qed.

Lemma apply_columns_length (q : dict json) (rows out : list row) :
  apply_columns q rows = Ok out -> List.length out = List.length rows.
Proof.
  unfold apply_columns.
  destruct (dict_get "columns" q) as [cs|]; [|now intros H; inversion H].
  destruct (truthy cs); [|now intros H; inversion H].
  destruct (first_element cs) as [first|e]; simpl; [|discriminate].
  destruct (is_star first); [now intros H; inversion H|].
  apply for_each_length.
Qed.

Lemma projection_twice (cs : list string) (item : row) :
  projection cs (projection cs item) = projection cs item.
Proof.
  assert (Hsel : selected cs (projection cs item) = selected cs item).
  { unfold selected. f_equal. apply filter_ext_in. intros c Hc.
    unfold dict_has. rewrite projection_lookup.
    apply existsb_eqb_In in Hc. now rewrite Hc. }
  unfold projection at 1. rewrite Hsel. unfold projection at 2.
  apply map_ext_in. intros c Hc. f_equal.
  apply selected_In in Hc. destruct Hc as [Hc _].
  unfold row_get. rewrite projection_lookup.
  apply existsb_eqb_In in Hc. now rewrite Hc.
Qed.

(** X9.  The projection returns one row per input row, whatever the
    [columns] field holds, and for a [columns] list of strings it is
    idempotent: projecting its own output again changes nothing. *)
Theorem projection_is_idempotent (q : dict json) (rows out : list row) :
  apply_columns q rows = Ok out ->
  List.length out = List.length rows /\
  (columns_ok q = true -> apply_columns q out = Ok out).
Proof.
  intros H. split; [exact (apply_columns_length q rows out H)|].
  intros Hok. unfold columns_ok in Hok.
  destruct (dict_get "columns" q) as [v|] eqn:Ev.
  - destruct v as [| | | | |l|]; try discriminate Hok.
    destruct (json_strings l Hok) as [cs ->].
    rewrite (apply_columns_list q cs rows Ev) in H.
    rewrite (apply_columns_list q cs out Ev).
    destruct (projection_skipped q); [reflexivity|].
    inversion H; subst out. f_equal.
    rewrite map_map. apply map_ext. intros item. apply projection_twice.
  - unfold apply_columns. now rewrite Ev.
Qed.

Lemma projection_is_idempotent_witness :
  List.length [[("name", VStr "Widget")]; [("name", VStr "Gadget")]]
  = List.length (to_dict_records Scenarios.products) /\
  (columns_ok [("columns", JList [JStr "name"])] = true ->
   apply_columns [("columns", JList [JStr "name"])]
     [[("name", VStr "Widget")]; [("name", VStr "Gadget")]]
   = Ok [[("name", VStr "Widget")]; [("name", VStr "Gadget")]]).
Proof.
  apply (projection_is_idempotent [("columns", JList [JStr "name"])]
           (to_dict_records Scenarios.products)).
  reflexivity.
Defined.

(* ------------------------------------------------------------------ *)
(** ** Limit: the other bounds *)

(** X10.  A negative limit [-k] with [k] at least the number of rows
    gives the empty result; [true] and [false] count as [1] and [0]; any
    other value that is not an integer or null (a float such as [5.0], a
    string, a list, a mapping) raises [TypeError]. *)
Theorem limit_edge_cases
        (repr : json -> string) (lower : string -> string)
        (q : dict json) (df : DataFrame)
        (rows : list row) (ws : list string) :
  filter_order_project repr lower q df = (Ok rows, ws) ->
  (forall k : Z,
      (Z.of_nat (List.length rows) <= k)%Z ->
      dict_get "limit" q = Some (JInt (- k)) ->
      execute_query repr lower q df = (Ok [], ws)) /\
  (dict_get "limit" q = Some (JBool true) ->
   execute_query repr lower q df = (Ok (firstn 1 rows), ws)) /\
  (dict_get "limit" q = Some (JBool false) ->
   execute_query repr lower q df = (Ok [], ws)) /\
  (forall v : json,
      dict_get "limit" q = Some v ->
      is_slice_bound v = false ->
      execute_query repr lower q df = (Raise TypeError, ws)).
Proof.
  intros Hstages. unfold execute_query. rewrite Hstages.
  unfold apply_limit. repeat split.
  - intros k Hk ->. unfold slice_to.
    destruct (- k <? 0)%Z eqn:E.
    + replace (Z.to_nat (Z.of_nat (List.length rows) + - k)) with 0%nat by lia.
      reflexivity.
    + apply Z.ltb_ge in E. assert (k = 0%Z) by lia. subst k.
      assert (rows = []) by (destruct rows; [reflexivity|simpl in Hk; lia]).
      subst rows. reflexivity.
  - now intros ->.
  - now intros ->.
  - intros v -> Hv. destruct v; try discriminate Hv; reflexivity.
Qed.

Lemma limit_edge_cases_witness :
  execute_query repr_atom ascii_lower
    [("columns", JList [JStr "*"]); ("limit", JFloat (1 # 1))]
    Scenarios.products
  = (Raise TypeError, []).
Proof.
  apply (proj2 (proj2 (proj2
           (limit_edge_cases repr_atom ascii_lower
              [("columns", JList [JStr "*"]); ("limit", JFloat (1 # 1))]
              Scenarios.products (to_dict_records Scenarios.products) []
              eq_refl)))
           (JFloat (1 # 1))).
  - reflexivity.
  - reflexivity.
Defined.

(* ------------------------------------------------------------------ *)
(** ** The result as a whole *)

Lemma apply_where_incl (repr : json -> string) (lower : string -> string)
      (q : dict json)
      (rows kept : list row) :
  apply_where repr lower q rows = Ok kept ->
  incl kept rows /\ (List.length kept <= List.length rows)%nat.
Proof.
  unfold apply_where. intros H.
  assert (Hsame : Ok rows = Ok kept ->
                  incl kept rows /\
                  (List.length kept <= List.length rows)%nat).
  { intros E. inversion E. split; [apply incl_refl|lia]. }
  destruct (dict_get "where" q) as [w|]; [|now apply Hsame].
  destruct (truthy w); [|now apply Hsame].
  apply select_each_result in H. subst kept. split.
  - intros r Hr. apply filter_In in Hr. exact (proj1 Hr).
  - apply filter_length_le.
Qed.

Lemma firstn_incl {A : Type} (n : nat) (l : list A) : incl (firstn n l) l.
Proof.
  intros x Hx. rewrite <- (firstn_skipn n l). apply in_or_app. now left.
Qed.

Lemma apply_limit_incl (q : dict json) (rows out : list row) :
  apply_limit q rows = Ok out ->
  incl out rows /\ (List.length out <= List.length rows)%nat.
Proof.
  unfold apply_limit. intros H.
  assert (Hslice : forall n,
             incl (slice_to n rows) rows /\
             (List.length (slice_to n rows) <= List.length rows)%nat).
  { intros n. unfold slice_to.
    destruct (n <? 0)%Z;
      (split; [apply firstn_incl|rewrite length_firstn; lia]). }
  destruct (dict_get "limit" q) as [v|];
    [|inversion H; split; [apply incl_refl|lia]].
  destruct v; try discriminate H; inversion H; subst out;
    try apply Hslice; (split; [apply incl_refl|lia]).
Qed.

(** X11.  A run that returns never returns more rows than the table has,
    and when the projection is passed over every returned row is a record
    of the table. *)
Theorem result_rows_come_from_the_table
        (repr : json -> string) (lower : string -> string)
        (q : dict json) (df : DataFrame)
        (out : list row) (ws : list string) :
  execute_query repr lower q df = (Ok out, ws) ->
  (List.length out <= List.length (data df))%nat /\
  (projection_skipped q = true ->
   forall r, In r out -> In r (to_dict_records df)).
Proof.
  rewrite execute_query_stages. intros H.
  destruct (apply_where repr lower q (to_dict_records df)) as [kept|e] eqn:Ew;
    [|discriminate H].
  destruct (apply_order_by repr q df kept) as [[sorted|e] ws'] eqn:Eo;
    [|discriminate H].
  destruct (apply_columns q sorted) as [projected|e] eqn:Ec; simpl in H;
    [|discriminate H].
  inversion H as [[Hl Hws]]. clear H.
  destruct (apply_where_incl repr lower q _ _ Ew) as [Hkin Hklen].
  pose proof (apply_order_by_perm repr q df _ _ _ Eo) as Hperm.
  pose proof (Permutation_length Hperm) as Hslen.
  pose proof (apply_columns_length q _ _ Ec) as Hplen.
  destruct (apply_limit_incl q _ _ Hl) as [Hoin Holen].
  split.
  - unfold to_dict_records in Hklen. rewrite length_map in Hklen. lia.
  - intros Hskip r Hr.
    rewrite (apply_columns_skipped q sorted Hskip) in Ec.
    inversion Ec; subst projected.
    apply Hkin. apply (Permutation_in r (Permutation_sym Hperm)).
    now apply Hoin.
Qed.

Lemma result_rows_come_from_the_table_witness :
  (List.length [Scenarios.widget] <= List.length (data Scenarios.products))%nat /\
  (projection_skipped
     [("columns", JList [JStr "*"]);
      ("where", JDict [("category", JStr "Electronics");
                       ("price_lt", JInt 200)])] = true ->
   forall r, In r [Scenarios.widget] ->
             In r (to_dict_records Scenarios.products)).
Proof.
  apply (result_rows_come_from_the_table repr_atom ascii_lower
           [("columns", JList [JStr "*"]);
            ("where", JDict [("category", JStr "Electronics");
                             ("price_lt", JInt 200)])]
           Scenarios.products [Scenarios.widget] []).
  reflexivity.
Defined.

(** X12.  A run shows no warning or exactly one, and it shows one only
    when the filter returned, [orderBy] is truthy with a [column] and a
    [direction], and the column it names is not a column of the table;
    the warning is then the text naming that column. *)
Theorem at_most_one_warning
        (repr : json -> string) (lower : string -> string)
        (q : dict json) (df : DataFrame) :
  snd (execute_query repr lower q df) = [] \/
  exists kept o column direction,
    apply_where repr lower q (to_dict_records df) = Ok kept /\
    dict_get "orderBy" q = Some o /\
    truthy o = true /\
    subscript o "column" = Ok column /\
    subscript o "direction" = Ok direction /\
    column_exists column df = Ok false /\
    snd (execute_query repr lower q df) = [sort_warning repr column].
Proof.
  rewrite execute_query_stages.
  destruct (apply_where repr lower q (to_dict_records df)) as [kept|e];
    [|now left].
  unfold apply_order_by.
  destruct (dict_get "orderBy" q) as [o|]; [|now left].
  destruct (truthy o) eqn:Et; [|now left].
  destruct (subscript o "column") as [column|e] eqn:Ec; [|now left].
  destruct (subscript o "direction") as [direction|e] eqn:Ed; [|now left].
  destruct (column_exists column df) as [[|]|e] eqn:Ex; [| |now left].
  - left. destruct (list_sort _ _ kept); reflexivity.
  - right. exists kept, o, column, direction. repeat split; auto.
Qed.

Lemma apply_order_by_field (repr : json -> string) (q q' : dict json)
      (df : DataFrame) (rows : list row) :
  dict_get "orderBy" q = dict_get "orderBy" q' ->
  apply_order_by repr q df rows = apply_order_by repr q' df rows.
Proof. unfold apply_order_by. now intros ->. Qed.

(** X13.  The interpreter reads the fields [where], [orderBy], [columns]
    and [limit] and nothing else: two queries that agree on these four
    run alike, so [operation] (or any other key) has no effect. *)
Theorem only_four_fields_are_read
        (repr : json -> string) (lower : string -> string)
        (q q' : dict json) (df : DataFrame) :
  dict_get "where" q = dict_get "where" q' ->
  dict_get "orderBy" q = dict_get "orderBy" q' ->
  dict_get "columns" q = dict_get "columns" q' ->
  dict_get "limit" q = dict_get "limit" q' ->
  execute_query repr lower q df = execute_query repr lower q' df.
Proof.
  intros Hw Ho Hc Hl. rewrite !execute_query_stages.
  rewrite (apply_where_field repr lower q q' _ Hw).
  destruct (apply_where repr lower q' (to_dict_records df)) as [kept|e];
    [|reflexivity].
  rewrite (apply_order_by_field repr q q' df kept Ho).
  destruct (apply_order_by repr q' df kept) as [[sorted|e] ws];
    [|reflexivity].
  rewrite (apply_columns_field q q' sorted Hc).
  destruct (apply_columns q' sorted) as [projected|e]; simpl; [|reflexivity].
  now rewrite (apply_limit_field q q' projected Hl).
Qed.

Lemma only_four_fields_are_read_witness :
  execute_query repr_atom ascii_lower
    [("operation", JStr "DELETE"); ("columns", JList [JStr "name"])]
    Scenarios.products
  = execute_query repr_atom ascii_lower
      [("operation", JStr "SELECT"); ("columns", JList [JStr "name"])]
      Scenarios.products.
Proof.
  apply (only_four_fields_are_read repr_atom ascii_lower
           [("operation", JStr "DELETE"); ("columns", JList [JStr "name"])]
           [("operation", JStr "SELECT"); ("columns", JList [JStr "name"])]
           Scenarios.products); reflexivity.
Defined.

(* ------------------------------------------------------------------ *)
(** ** The filter as a conjunction *)


Section Conjunction.
Variable repr : json -> string.
Variable lower : string -> string.



End Conjunction.



(* ------------------------------------------------------------------ *)
(** ** What raises *)

Lemma is_desc_other (d : json) : d <> JStr "DESC" -> is_desc d = false.
Proof.
  intros Hd. destruct d as [| | | |t| |]; try reflexivity. simpl.
  destruct (String.eqb t "DESC") eqn:E; [|reflexivity].
  apply String.eqb_eq in E. now subst t.
Qed.

(** C6 (as amended).  A query whose [where] operands have the type their
    suffix asks for, whose [columns] is a list of strings and whose
    [limit] is an integer or null never makes the filter, the projection
    or the limit raise, whatever the cells hold; without [orderBy] the
    whole run returns.  A non-empty [orderBy] that lacks [column] or
    [direction] raises [KeyError]; an empty one is passed over.  The
    value of [direction] is not validated: with a column of the table,
    any value other than [DESC], of any type, runs the ascending sort,
    which returns the rows in ascending key order when the keys all
    compare. *)
Theorem raises_only_on_incomplete_order_by
        (repr : json -> string) (lower : string -> string)
        (q : dict json) (df : DataFrame) :
  where_ok q = true ->
  columns_ok q = true ->
  limit_ok q = true ->
  (forall rows, exists kept, apply_where repr lower q rows = Ok kept) /\
  (forall rows, exists projected, apply_columns q rows = Ok projected) /\
  (forall rows, exists out, apply_limit q rows = Ok out) /\
  (dict_get "orderBy" q = None ->
   exists out, execute_query repr lower q df = (Ok out, [])) /\
  (forall (o : dict json) (rows : list row),
      dict_get "orderBy" q = Some (JDict o) ->
      o <> [] ->
      dict_get "column" o = None \/ dict_get "direction" o = None ->
      apply_order_by repr q df rows = (Raise KeyError, [])) /\
  (forall rows : list row,
      dict_get "orderBy" q = Some (JDict []) ->
      apply_order_by repr q df rows = (Ok rows, [])) /\
  (forall (o : dict json) (c : string) (d : json) (rows : list row),
      dict_get "orderBy" q = Some (JDict o) ->
      dict_get "column" o = Some (JStr c) ->
      dict_get "direction" o = Some d ->
      In c (columns df) ->
      d <> JStr "DESC" ->
      apply_order_by repr q df rows
      = (list_sort (row_get c) false rows, []) /\
      (comparable_keys (row_get c) rows ->
       exists sorted : list row,
         apply_order_by repr q df rows = (Ok sorted, []) /\
         Permutation rows sorted /\
         ascending (row_get c) sorted)).
Proof.
  intros Hwhere Hcolumns Hlimit.
  assert (Hw : forall rows, exists kept, apply_where repr lower q rows = Ok kept).
  { intros rows. unfold where_ok in Hwhere. unfold apply_where.
    destruct (dict_get "where" q) as [v|]; [|now eexists].
    destruct v as [| | | | | |w]; try discriminate Hwhere.
    destruct (truthy (JDict w)); [|now eexists].
    eexists. apply select_each_total. intros item _.
    unfold items, bind. now apply row_matches_total. }
  assert (Hc : forall rows, exists projected,
               apply_columns q rows = Ok projected).
  { intros rows. now apply apply_columns_returns. }
  assert (Hl : forall rows, exists out, apply_limit q rows = Ok out).
  { intros rows. unfold limit_ok in Hlimit. unfold apply_limit.
    destruct (dict_get "limit" q) as [v|]; [|now eexists].
    destruct v; try discriminate Hlimit; now eexists. }
  split; [exact Hw|]. split; [exact Hc|]. split; [exact Hl|].
  split; [|split; [|split]].
  - intros Ho. rewrite execute_query_stages.
    destruct (Hw (to_dict_records df)) as [kept ->].
    rewrite apply_order_by_absent by exact Ho.
    destruct (Hc kept) as [projected ->]. simpl.
    destruct (Hl projected) as [out ->]. now eexists.
  - intros o rows Ho Hne Hmissing. unfold apply_order_by. rewrite Ho.
    assert (Ht : truthy (JDict o) = true)
      by (destruct o; [contradiction|reflexivity]).
    rewrite Ht. unfold subscript.
    destruct Hmissing as [-> | Hd]; [reflexivity|].
    rewrite Hd. destruct (dict_get "column" o); reflexivity.
  - intros rows Ho. unfold apply_order_by. rewrite Ho. reflexivity.
  - intros o c d rows Ho Hcol Hdir Hin Hd.
    rewrite (apply_order_by_sorts repr q df o c d rows Ho Hcol Hdir Hin).
    rewrite (is_desc_other d Hd). split; [reflexivity|].
    intros Hkeys.
    destruct (list_sort_comparable (row_get c) false rows Hkeys)
      as [sorted [Hs [Hp Ha]]].
    exists sorted. rewrite Hs. now repeat split.
Qed.

Lemma raises_only_on_incomplete_order_by_witness :
  apply_order_by repr_atom
    [("columns", JList [JStr "*"]);
     ("orderBy", JDict [("column", JStr "price")])]
    Scenarios.products (to_dict_records Scenarios.products)
  = (Raise KeyError, []) /\
  apply_order_by repr_atom (Ties.by_price "SIDEWAYS") Ties.catalogue
    (to_dict_records Ties.catalogue)
  = (Ok [Ties.widget; Ties.gizmo; Ties.dear_gadget], []).
Proof.
  split.
  - apply (proj1 (proj2 (proj2 (proj2 (proj2
             (raises_only_on_incomplete_order_by repr_atom ascii_lower
                [("columns", JList [JStr "*"]);
                 ("orderBy", JDict [("column", JStr "price")])]
                Scenarios.products eq_refl eq_refl eq_refl)))))
             [("column", JStr "price")]).
    + reflexivity.
    + discriminate.
    + right. reflexivity.
  - rewrite (proj1 (proj2 (proj2 (proj2 (proj2 (proj2 (proj2
               (raises_only_on_incomplete_order_by repr_atom ascii_lower
                  (Ties.by_price "SIDEWAYS") Ties.catalogue
                  eq_refl eq_refl eq_refl))))))
               [("column", JStr "price"); ("direction", JStr "SIDEWAYS")]
               "price" (JStr "SIDEWAYS") (to_dict_records Ties.catalogue)
               eq_refl eq_refl eq_refl
               ltac:(simpl; tauto) ltac:(discriminate))).
    reflexivity.
Defined.

(** Raising and a malformed query are not the same thing.  An [orderBy]
    without [column] and [direction] is accepted when it is empty; a
    direction that is neither [ASC] nor [DESC], or not even a string,
    sorts the rows ascending; and a well-shaped query that orders a
    column mixing numbers and text raises [TypeError]. *)
Lemma order_by_shape_is_not_checked :
  execute_query repr_atom ascii_lower
    [("columns", JList [JStr "*"]); ("orderBy", JDict [])]
    Ties.catalogue
  = (Ok [Ties.widget; Ties.dear_gadget; Ties.gizmo], []) /\
  execute_query repr_atom ascii_lower (Ties.by_price "SIDEWAYS")
    Ties.catalogue
  = (Ok [Ties.widget; Ties.gizmo; Ties.dear_gadget], []) /\
  execute_query repr_atom ascii_lower
    [("columns", JList [JStr "*"]);
     ("orderBy", JDict [("column", JStr "price"); ("direction", JNone)])]
    Ties.catalogue
  = (Ok [Ties.widget; Ties.gizmo; Ties.dear_gadget], []) /\
  execute_query repr_atom ascii_lower (Ties.by_price "ASC") Ties.mixed_price
  = (Raise TypeError, []).
Proof. repeat split. Qed.

(* ------------------------------------------------------------------ *)
(** ** The response of the language model *)

(** X14.  [call_gemini_api] returns a text exactly when the decoded
    response is a mapping whose [candidates] is a list that starts with a
    mapping, whose [content] is a mapping, whose [parts] is a list that
    starts with a mapping that has a [text] entry; the text returned is
    that entry.  Later candidates and later parts are never looked at. *)
Theorem response_text_returned (decoded t : json) :
  response_text decoded = Ok (Some t) <->
  exists d c cs cont part ps,
    decoded = JDict d /\
    dict_get "candidates" d = Some (JList (JDict c :: cs)) /\
    dict_get "content" c = Some (JDict cont) /\
    dict_get "parts" cont = Some (JList (JDict part :: ps)) /\
    dict_get "text" part = Some t.
Proof.
  split.
  - unfold response_text. intros H.
    destruct decoded as [| | | | | |d]; try discriminate H.
    simpl in H.
    destruct (dict_get "candidates" d) as [cand|] eqn:Ecand;
      [|discriminate H].
    destruct (truthy cand) eqn:Tcand; [|discriminate H].
    destruct cand as [| | | | |[|x cs]|]; try discriminate H;
      try (simpl in H; destruct s; discriminate H).
    simpl in H.
    destruct x as [| | | | | |c]; try discriminate H.
    simpl in H.
    destruct (dict_get "content" c) as [content|] eqn:Econt;
      [|discriminate H].
    destruct (truthy content) eqn:Tcont; [|discriminate H].
    destruct content as [| | | | | |cont]; try discriminate H.
    simpl in H.
    destruct (dict_get "parts" cont) as [parts|] eqn:Eparts;
      [|discriminate H].
    destruct (truthy parts) eqn:Tparts; [|discriminate H].
    destruct parts as [| | | | |[|y ps]|]; try discriminate H;
      try (simpl in H; destruct s; discriminate H).
    simpl in H.
    destruct y as [| | | | | |part]; try discriminate H.
    simpl in H.
    destruct (dict_get "text" part) as [text|] eqn:Etext; [|discriminate H].
    inversion H; subst text.
    exists d, c, cs, cont, part, ps. repeat split; assumption.
  - intros [d [c [cs [cont [part [ps [-> [Hc [Hcont [Hp Ht]]]]]]]]]].
    unfold response_text. simpl. rewrite Hc. simpl. rewrite Hcont.
    assert (Htruthy : truthy (JDict cont) = true)
      by (destruct cont; [discriminate Hp|reflexivity]).
    rewrite Htruthy. simpl. rewrite Hp. simpl. now rewrite Ht.
Qed.

Lemma response_text_returned_witness :
  response_text
    (JDict [("candidates",
             JList [JDict [("content",
                            JDict [("parts",
                                    JList [JDict [("text", JStr "{}")]]);
                                   ("role", JStr "model")])]])])
  = Ok (Some (JStr "{}")).
Proof.
  apply (proj2 (response_text_returned _ (JStr "{}"))).
  do 6 eexists. repeat split; reflexivity.
Defined.

(** X15.  A response without candidates, with an empty list of
    candidates, or whose first candidate has no content, no parts or an
    empty list of parts gives no text and raises nothing; a first part
    without a [text] entry raises [KeyError], and a response that is not
    a mapping raises [AttributeError]. *)
Theorem response_without_text (d : dict json) :
  (dict_get "candidates" d = None \/
   dict_get "candidates" d = Some (JList []) ->
   response_text (JDict d) = Ok None) /\
  (forall c cs,
      dict_get "candidates" d = Some (JList (JDict c :: cs)) ->
      (dict_get "content" c = None -> response_text (JDict d) = Ok None) /\
      (forall cont,
          dict_get "content" c = Some (JDict cont) ->
          (dict_get "parts" cont = None \/
           dict_get "parts" cont = Some (JList []) ->
           response_text (JDict d) = Ok None) /\
          (forall part ps,
              dict_get "parts" cont = Some (JList (JDict part :: ps)) ->
              dict_get "text" part = None ->
              response_text (JDict d) = Raise KeyError))) /\
  (forall l, response_text (JList l) = Raise AttributeError).
Proof.
  split; [|split].
  - intros [H|H]; unfold response_text; simpl; rewrite H; reflexivity.
  - intros c cs Hc. split.
    + intros Hcont. unfold response_text. simpl. rewrite Hc. simpl.
      now rewrite Hcont.
    + intros cont Hcont. split.
      * intros Hp. unfold response_text. simpl. rewrite Hc. simpl.
        rewrite Hcont.
        destruct cont as [|entry cont]; [reflexivity|].
        cbn [truthy]. cbv iota. cbn [py_get bind].
        destruct Hp as [-> | ->]; reflexivity.
      * intros part ps Hp Ht. unfold response_text. simpl. rewrite Hc.
        simpl. rewrite Hcont.
        assert (Htruthy : truthy (JDict cont) = true)
          by (destruct cont; [discriminate Hp|reflexivity]).
        rewrite Htruthy. simpl. rewrite Hp. simpl. now rewrite Ht.
  - reflexivity.
Qed.

Lemma response_without_text_witness :
  response_text
    (JDict [("promptFeedback", JDict [("blockReason", JStr "SAFETY")])])
  = Ok None.
Proof.
  apply (proj1 (response_without_text
                  [("promptFeedback",
                    JDict [("blockReason", JStr "SAFETY")])])).
  left. reflexivity.
Defined.

(* ------------------------------------------------------------------ *)
(** ** The schema description *)

Lemma for_each_returns {A B : Type} (f : A -> result B) (xs : list A) :
  (exists ys, for_each f xs = Ok ys) <->
  (forall x, In x xs -> exists y, f x = Ok y).
Proof.
  induction xs as [|x xs IH]; simpl.
  - split; [intros _ y []|intros _; now eexists].
  - split.
    + intros [ys H] y [<-|Hy].
      * destruct (f x) as [z|e]; [now eexists|discriminate H].
      * destruct (f x) as [z|e]; [|discriminate H]. simpl in H.
        destruct (for_each f xs) as [zs|e] eqn:E; [|discriminate H].
        apply (proj1 IH); [now eexists|exact Hy].
    + intros H. destruct (H x (or_introl eq_refl)) as [y ->]. simpl.
      destruct (proj2 IH (fun z Hz => H z (or_intror Hz))) as [ys ->].
      now eexists.
Qed.

Lemma for_each_raises {A B : Type} (f : A -> result B) (xs : list A)
      (e : exn) :
  for_each f xs = Raise e -> exists x, In x xs /\ f x = Raise e.
Proof.
  induction xs as [|x xs IH]; simpl; [discriminate|].
  destruct (f x) as [y|e'] eqn:Ex; simpl.
  - destruct (for_each f xs) as [ys|e']; simpl; [discriminate|].
    intros H. inversion H; subst e'.
    destruct (IH eq_refl) as [z [Hz Hf]]. exists z. split; [now right|exact Hf].
  - intros H. inversion H; subst e'. exists x. split; [now left|exact Ex].
Qed.

Lemma dropna_nonempty (s : list scalar) :
  dropna s <> [] <-> exists v, In v s /\ is_missing v = false.
Proof.
  unfold dropna. split.
  - intros H. destruct (filter _ s) as [|v l] eqn:E; [contradiction|].
    assert (Hv : In v (filter (fun x => negb (is_missing x)) s))
      by (rewrite E; now left).
    apply filter_In in Hv. destruct Hv as [Hin Hm].
    exists v. split; [exact Hin|]. now apply negb_true_iff.
  - intros [v [Hin Hm]] E.
    assert (Hv : In v (filter (fun x => negb (is_missing x)) s))
      by (apply filter_In; split; [exact Hin|now rewrite Hm]).
    rewrite E in Hv. destruct Hv.
Qed.

Lemma series_nonempty (df : DataFrame) (col : string) :
  df_empty df = false -> series df col <> [].
Proof.
  unfold df_empty, series, to_dict_records.
  destruct (columns df); [discriminate|].
  destruct (data df); [discriminate|]. discriminate.
Qed.

Lemma infer_col_type_returns (df : DataFrame) (col : string) :
  df_empty df = false ->
  ((exists t, infer_col_type df col = Ok t) <->
   exists v, In v (series df col) /\ is_missing v = false) /\
  (forall e, infer_col_type df col = Raise e -> e = IndexError).
Proof.
  intros Hne. pose proof (series_nonempty df col Hne) as Hs.
  rewrite <- dropna_nonempty. unfold infer_col_type.
  destruct (series df col) as [|x s]; [contradiction|].
  destruct (dropna (x :: s)) as [|v l]; cbn [iloc0 bind].
  - split.
    + split; [intros [t H]; discriminate H|intros H; now destruct H].
    + intros e H. now inversion H.
  - split.
    + split; [discriminate|]. intros _.
      destruct (isinstance_int_float (box (x :: s) v)); [now eexists|].
      destruct (isinstance_bool (box (x :: s) v)); now eexists.
    + intros e.
      destruct (isinstance_int_float (box (x :: s) v)); [discriminate|].
      destruct (isinstance_bool (box (x :: s) v)); discriminate.
Qed.

(** X16.  On a table without rows or without columns the inferencer
    returns the fixed sentence.  Otherwise it returns iff every column
    has at least one non-missing cell; when some column has none it
    raises [IndexError], and it raises nothing else. *)
Theorem schema_definition_returns (df : DataFrame) :
  (df_empty df = true ->
   generate_schema_definition df = Ok "The database table is empty.") /\
  (df_empty df = false ->
   ((exists s, generate_schema_definition df = Ok s) <->
    (forall col, In col (columns df) ->
                 exists v, In v (series df col) /\ is_missing v = false)) /\
   (forall e, generate_schema_definition df = Raise e -> e = IndexError)).
Proof.
  unfold generate_schema_definition. split; [now intros ->|].
  intros Hne. rewrite Hne.
  set (line := fun col => t <- infer_col_type df col ;; Ok (schema_part col t)).
  assert (Hline : forall col,
             (exists y, line col = Ok y) <->
             exists t, infer_col_type df col = Ok t).
  { intros col. unfold line.
    destruct (infer_col_type df col) as [t|e]; simpl.
    - split; intros _; now eexists.
    - split; intros [y H]; discriminate H. }
  split.
  - split.
    + intros [s H] col Hcol.
      apply (proj1 (infer_col_type_returns df col Hne)), Hline.
      destruct (for_each line (columns df)) as [parts|e] eqn:E;
        [|discriminate H].
      apply (proj1 (for_each_returns line (columns df)));
        [exists parts; exact E|exact Hcol].
    + intros H.
      destruct (proj2 (for_each_returns line (columns df))) as [parts ->].
      * intros col Hcol. apply Hline.
        apply (proj1 (infer_col_type_returns df col Hne)). now apply H.
      * now eexists.
  - intros e H.
    destruct (for_each line (columns df)) as [parts|e'] eqn:E;
      [discriminate H|].
    simpl in H. inversion H; subst e'.
    apply for_each_raises in E. destruct E as [col [_ Hcol]].
    unfold line in Hcol.
    destruct (infer_col_type df col) as [t|e'] eqn:Et; [discriminate Hcol|].
    simpl in Hcol. inversion Hcol; subst e'.
    exact (proj2 (infer_col_type_returns df col Hne) e Et).
Qed.

Lemma schema_definition_returns_witness :
  exists s, generate_schema_definition Scenarios.products = Ok s.
Proof.
  apply (proj1 (proj2 (schema_definition_returns Scenarios.products)
                      eq_refl)).
  intros col Hcol. simpl in Hcol.
  destruct Hcol as [<-|[<-|[<-|[<-|[<-|[]]]]]];
    eexists; (split; [left; reflexivity|reflexivity]).
Defined.

Lemma schema_lines (df : DataFrame) (cols : list string)
      (parts : list string) :
  for_each (fun col => t <- infer_col_type df col ;; Ok (schema_part col t))
           cols = Ok parts ->
  exists ts : list (string * col_type),
    for_each (fun col => t <- infer_col_type df col ;; Ok (col, t)) cols
    = Ok ts /\
    parts = map (fun ct => schema_part (fst ct) (snd ct)) ts /\
    map fst ts = cols /\
    (forall c t, In (c, t) ts -> infer_col_type df c = Ok t).
Proof.
  revert parts. induction cols as [|col cols IH]; intros parts H; simpl in *.
  - inversion H. exists []. repeat split. intros c t [].
  - destruct (infer_col_type df col) as [t|e] eqn:Et; [|discriminate H].
    simpl in *.
    destruct (for_each _ cols) as [rest|e] eqn:Er; [|discriminate H].
    simpl in H. inversion H; subst parts.
    destruct (IH rest eq_refl) as [ts [Hts [Hrest [Hfst Hin]]]].
    exists ((col, t) :: ts). rewrite Hts. simpl.
    repeat split; try congruence.
    intros c t' [E|Hc]; [inversion E; now subst|now apply Hin].
Qed.

Lemma iloc0_dropna_In (s : list scalar) (x : scalar) :
  iloc0 (dropna s) = Ok x -> In x s.
Proof.
  unfold dropna. destruct (filter _ s) as [|y l] eqn:E; [discriminate|].
  intros H. inversion H; subst y.
  assert (Hx : In x (filter (fun v => negb (is_missing v)) s))
    by (rewrite E; now left).
  apply filter_In in Hx. exact (proj1 Hx).
Qed.

Lemma box_numpy_column (s : list scalar) (x : scalar) :
  numpy_column s = true -> In x s ->
  isinstance_int_float (box s x) = false /\
  isinstance_bool (box s x) = false.
Proof.
  unfold numpy_column. intros H Hx.
  destruct (integer_dtype s) eqn:Ei.
  - assert (Hint : exists z, x = VInt z).
    { unfold integer_dtype in Ei. apply orb_true_iff in Ei.
      destruct Ei as [E|E];
        pose proof (proj1 (forallb_forall _ _) E x Hx) as Hc;
        destruct x; try discriminate Hc; now eexists. }
    destruct Hint as [z ->]. unfold box. rewrite Ei. now split.
  - simpl in H. unfold bool_dtype in H.
    pose proof (proj1 (forallb_forall _ _) H x Hx) as Hc.
    destruct x; try discriminate Hc.
    unfold box, bool_dtype. rewrite H. now split.
Qed.

Lemma box_object_column (s : list scalar) (x : scalar) :
  numpy_column s = false -> box s x = Python x.
Proof.
  unfold numpy_column, box. intros H. apply orb_false_iff in H.
  destruct H as [-> ->]. now destruct x.
Qed.

(** X17.  The description of a non-empty table is the header followed by
    one line [- name (type)] per column, in the order of the columns.
    No line ever says [boolean].  A column all of whose cells are 64-bit
    integers, or all booleans, is a [string]; any other column is a
    [number] when its first non-missing cell is an integer, a float or a
    boolean, and a [string] when that cell is a string. *)
Theorem schema_definition_lines (df : DataFrame) (s : string) :
  df_empty df = false ->
  generate_schema_definition df = Ok s ->
  exists ts : list (string * col_type),
    schema_types df = Ok ts /\
    s = (schema_header
         ++ join newline (map (fun ct => schema_part (fst ct) (snd ct)) ts))%string /\
    map fst ts = columns df /\
    (forall c t,
        In (c, t) ts ->
        t <> TBoolean /\
        (numpy_column (series df c) = true -> t = TString) /\
        (numpy_column (series df c) = false ->
         forall x rest,
           dropna (series df c) = x :: rest ->
           t = if is_int_or_float x then TNumber else TString)).
Proof.
  unfold generate_schema_definition, schema_types. intros Hne H.
  rewrite Hne in H.
  destruct (for_each _ (columns df)) as [parts|e] eqn:E; [|discriminate H].
  simpl in H. inversion H; subst s.
  destruct (schema_lines df (columns df) parts E)
    as [ts [Hts [Hparts [Hfst Hin]]]].
  exists ts. rewrite Hparts.
  split; [exact Hts|]. split; [reflexivity|]. split; [exact Hfst|].
  intros c t Hct. apply Hin in Hct. split; [|split].
  - intros ->. exact (infer_col_type_never_boolean df c Hct).
  - intros Hnp. unfold infer_col_type in Hct.
    destruct (series df c) as [|y l] eqn:Es; [now inversion Hct|].
    destruct (iloc0 (dropna (y :: l))) as [x|e] eqn:Ex; [|discriminate Hct].
    cbn [bind] in Hct.
    destruct (box_numpy_column (y :: l) x Hnp (iloc0_dropna_In _ _ Ex))
      as [H1 H2].
    rewrite H1, H2 in Hct. now inversion Hct.
  - intros Hobj x rest Hx. unfold infer_col_type in Hct.
    destruct (series df c) as [|y l] eqn:Es; [discriminate Hx|].
    rewrite Hx in Hct. cbn [iloc0 bind] in Hct.
    rewrite (box_object_column (y :: l) x Hobj) in Hct.
    cbn [isinstance_int_float isinstance_bool] in Hct.
    destruct (is_int_or_float x) eqn:En; [now inversion Hct|].
    destruct x; try discriminate En; simpl in Hct; now inversion Hct.
Qed.

Lemma schema_definition_lines_witness :
  exists ts : list (string * col_type),
    schema_types Scenarios.products = Ok ts /\
    map fst ts = columns Scenarios.products.
Proof.
  destruct (schema_definition_lines Scenarios.products _ eq_refl eq_refl)
    as [ts [Hts [_ [Hfst _]]]].
  exists ts. split; assumption.
Defined.
